(** * ExportVisibleFiles: a shallow embedding of the add-in script

    The script [ExportVisibleFiles.py] is an add-in for a CAD host.  It has
    three pure helpers ([get_visible_entities], [sanitize_filename],
    [get_file_extension]), one effectful helper ([export_entity]), three
    event callbacks, and the two entry points [run] and [stop].  The pure
    helpers are plain functions here; the effectful code runs in a
    state-and-exception monad that records every call it makes into the
    host, with the answer the host gave. *)

From Stdlib Require Import String Ascii NArith Arith Lia Bool List.
Import ListNotations.

Set Implicit Arguments.

(** ** Python strings

    A Python [str] is a sequence of Unicode code points.  A character is
    its code point; a literal of the script is written as a Rocq string
    and read through [lit]. *)

Definition char := N.
Definition str := list char.

Definition lit (s : string) : str :=
  map N_of_ascii (list_ascii_of_string s).

Definition char_eqb : char -> char -> bool := N.eqb.

Fixpoint str_eqb (a b : str) : bool :=
  match a, b with
  | [], [] => true
  | x :: a', y :: b' => char_eqb x y && str_eqb a' b'
  | _, _ => false
  end.

(** [c in (x1, ..., xn)] for one-character strings. *)
Definition in_tuple (c : char) (t : list char) : bool :=
  existsb (char_eqb c) t.

(** [str(n)] for a non-negative integer: its decimal digits. *)
Fixpoint digits_of_uint (d : Decimal.uint) : str :=
  match d with
  | Decimal.Nil => []
  | Decimal.D0 r => 48%N :: digits_of_uint r
  | Decimal.D1 r => 49%N :: digits_of_uint r
  | Decimal.D2 r => 50%N :: digits_of_uint r
  | Decimal.D3 r => 51%N :: digits_of_uint r
  | Decimal.D4 r => 52%N :: digits_of_uint r
  | Decimal.D5 r => 53%N :: digits_of_uint r
  | Decimal.D6 r => 54%N :: digits_of_uint r
  | Decimal.D7 r => 55%N :: digits_of_uint r
  | Decimal.D8 r => 56%N :: digits_of_uint r
  | Decimal.D9 r => 57%N :: digits_of_uint r
  end.

Definition py_str (n : nat) : str := digits_of_uint (Nat.to_uint n).

(** Exceptions carry the name of their class and their message. *)
Record exn := PyExn { exn_class : str; exn_message : str }.

(** ** The Python runtime

    The script uses four things of the runtime whose definitions are not
    part of the repository: the Unicode tables behind [str.isalnum] and
    the whitespace test of [str.rstrip], the platform's [os.path.join],
    and [traceback.format_exc].  They are the fields of this interface. *)

Class Runtime := {
  isalnum : char -> bool;
  isspace : char -> bool;
  path_join : str -> str -> str;
  format_exc : exn -> str
}.

(** ** The document model of the host

    The script only reads three attributes of a component ([name],
    [isVisible], [bRepBodies]), two of a body ([name], [isVisible]) and one
    of the root component ([allComponents]). *)

Record BRepBody := mkBody {
  body_name : str;
  body_isVisible : bool
}.

Record Component := mkComponent {
  comp_name : str;
  comp_isVisible : bool;
  bRepBodies : list BRepBody
}.

Record RootComponent := mkRoot {
  allComponents : list Component
}.

(** What [visible_items] holds, and what [export_entity] tells apart with
    [isinstance]. *)
Inductive Entity :=
| EComponent (c : Component)
| EBody (b : BRepBody).

Definition entity_name (e : Entity) : str :=
  match e with
  | EComponent c => comp_name c
  | EBody b => body_name b
  end.

(** ** Pure helpers *)

(** [for comp in root_comp.allComponents: if comp.isVisible: append(comp)] *)
Fixpoint visible_components (cs : list Component) : list Entity :=
  match cs with
  | [] => []
  | comp :: rest =>
      if comp_isVisible comp
      then EComponent comp :: visible_components rest
      else visible_components rest
  end.

(** [for body in comp.bRepBodies: if body.isVisible: append(body)] *)
Fixpoint visible_bodies_of (bs : list BRepBody) : list Entity :=
  match bs with
  | [] => []
  | body :: rest =>
      if body_isVisible body
      then EBody body :: visible_bodies_of rest
      else visible_bodies_of rest
  end.

(** The outer loop of the second pass: every component, visible or not. *)
Fixpoint visible_bodies (cs : list Component) : list Entity :=
  match cs with
  | [] => []
  | comp :: rest => visible_bodies_of (bRepBodies comp) ++ visible_bodies rest
  end.

Definition get_visible_entities
    (root_comp : RootComponent) (export_components export_bodies : bool)
    : list Entity :=
  let visible_items := [] in
  let visible_items :=
    if export_components
    then visible_items ++ visible_components (allComponents root_comp)
    else visible_items in
  let visible_items :=
    if export_bodies
    then visible_items ++ visible_bodies (allComponents root_comp)
    else visible_items in
  visible_items.

Definition SPACE : char := 32%N.
Definition DOT : char := 46%N.
Definition UNDERSCORE : char := 95%N.
Definition HYPHEN : char := 45%N.

Section Sanitize.
Context {RT : Runtime}.

(** [c.isalnum() or c in (' ', '.', '_', '-')] *)
Definition allowed (c : char) : bool :=
  isalnum c || in_tuple c [SPACE; DOT; UNDERSCORE; HYPHEN].

(** Skip the leading characters that satisfy [p]. *)
Fixpoint dropwhile (p : char -> bool) (s : str) : str :=
  match s with
  | [] => []
  | c :: t => if p c then dropwhile p t else s
  end.

(** [s.rstrip()]: scan from the right end while the character is
    whitespace, keep what is left of it. *)
Definition rstrip (s : str) : str := rev (dropwhile isspace (rev s)).

(** ["".join(c for c in name if ...).rstrip()] *)
Definition sanitize_filename (name : str) : str :=
  rstrip (filter allowed name).

End Sanitize.

(** [{...}.get(key, default)] on a dictionary literal. *)
Fixpoint dict_get (d : list (str * str)) (key : str) (default : str) : str :=
  match d with
  | [] => default
  | (k, v) :: rest => if str_eqb k key then v else dict_get rest key default
  end.

Definition get_file_extension (format_str : str) : str :=
  dict_get [ (lit "STEP", lit "step");
             (lit "STL", lit "stl");
             (lit "IGES", lit "igs");
             (lit "SAT", lit "sat") ] format_str (lit "stp").

(** ** The host interface

    Everything else the script does is a call into the host application:
    reading an attribute of a host object, setting one, or calling a
    method.  A host object the script only passes around is a [handle]. *)

Inductive handle := Handle (n : nat).

Inductive DropDownStyles := TextListDropDownStyle.

(** The event handler objects the script creates and registers. *)
Inductive handler :=
| NewCommandCreatedHandler
| NewInputChangedHandler
| NewCommandExecuteHandler.

(** The host calls of the script, indexed by the type of their result. *)
Inductive call : Type -> Type :=
(* application and document *)
| ActiveProduct : call handle
| GetRootComponent (design : handle) : call RootComponent
| GetExportManager (design : handle) : call handle
(* export manager *)
| CreateSTEPExportOptions (mgr : handle) (filepath : str) (geometry : Component) : call handle
| CreateIGESExportOptions (mgr : handle) (filepath : str) (geometry : Component) : call handle
| CreateSATExportOptions (mgr : handle) (filepath : str) (geometry : Component) : call handle
| CreateSTLExportOptions (mgr : handle) (geometry : list BRepBody) (filepath : str) : call handle
| Execute (mgr : handle) (options : handle) : call bool
(* event arguments and command *)
| GetCommand (args : handle) : call handle
| GetInputs (args : handle) : call handle
| GetFiringEvent (args : handle) : call handle
| GetSender (ev : handle) : call handle
| GetCommandInputs (cmd : handle) : call handle
| InputChangedAdd (cmd : handle) (h : handler) : call bool
| ExecuteAdd (cmd : handle) (h : handler) : call bool
(* command inputs *)
| AddBoolValueInput (inputs : handle) (id name : str) (isCheckBox : bool) : call handle
| AddDropDownCommandInput (inputs : handle) (id name : str) (style : DropDownStyles) : call handle
| GetListItems (dropdown : handle) : call handle
| ListItemsAdd (items : handle) (name : str) (isSelected : bool) : call handle
| AddTextBoxCommandInput (inputs : handle) (id name text : str) (numRows : nat) (isReadOnly : bool) : call handle
| ItemById (inputs : handle) (id : str) : call handle
| GetValue (input : handle) : call bool
| GetSelectedItem (dropdown : handle) : call handle
| GetName (item : handle) : call str
| SetText (input : handle) (text : str) : call unit
(* dialogs *)
| SelectFolderDialog (title : str) : call str
| CreateProgressDialog : call handle
| SetIsBackgroundTranslucent (progress : handle) (v : bool) : call unit
| ProgressShow (progress : handle) (title message : str) (minimumValue maximumValue delay : nat) : call unit
| SetProgressValue (progress : handle) (v : nat) : call unit
| ProgressHide (progress : handle) : call unit.

(** A call returns a value or raises. *)
Inductive result (A : Type) :=
| Normal (a : A)
| Raise (e : exn).
Arguments Raise {A} e.

(** The host answers every call from its own state, with a value or an
    exception.  [ui.messageBox] is one more method of the host: it
    displays the text and returns, or raises like any other call. *)
Class Host := {
  host_state : Type;
  host_respond : forall R, call R -> host_state -> result R * host_state;
  host_display : str -> host_state -> result unit * host_state
}.

(** What an observer of the host sees: each call with its answer, and each
    message box with the way it ended. *)
Inductive event :=
| Called (R : Type) (c : call R) (r : result R)
| MessageBox (text : str) (r : result unit).

Section Script.
Context {RT : Runtime} {H : Host}.

(** The state the script runs in: the host, and the module-level list
    [handlers]. *)
Record world := mkWorld {
  host : host_state;
  handlers : list handler
}.

(** A run of a piece of the script: how it ended, the state it left,
    and the events it caused, in order. *)
Record run (A : Type) := mkRun {
  outcome : result A;
  final : world;
  events : list event
}.

Definition M (A : Type) := world -> run A.

Definition ret {A} (a : A) : M A := fun w => mkRun (Normal a) w [].

(** The run [r], after the events [before]. *)
Definition after {A} (before : list event) (r : run A) : run A :=
  match r with
  | mkRun o w' t => mkRun o w' (before ++ t)
  end.

Definition bind {A B} (m : M A) (k : A -> M B) : M B :=
  fun w =>
    match m w with
    | mkRun (Normal a) w' t => after t (k a w')
    | mkRun (Raise e) w' t => mkRun (Raise e) w' t
    end.

(** [try: body  except: handler] with a bare [except], which catches
    every exception. *)
Definition try_except {A} (body : M A) (handle_exc : exn -> M A) : M A :=
  fun w =>
    match body w with
    | mkRun (Normal a) w' t => mkRun (Normal a) w' t
    | mkRun (Raise e) w' t => after t (handle_exc e w')
    end.

Definition host_call {R} (c : call R) : M R :=
  fun w =>
    let (r, h') := host_respond c (host w) in
    mkRun r (mkWorld h' (handlers w)) [Called c r].

Definition messageBox (text : str) : M unit :=
  fun w =>
    let (r, h') := host_display text (host w) in
    mkRun r (mkWorld h' (handlers w)) [MessageBox text r].

(** [handlers.append(h)] *)
Definition handlers_append (h : handler) : M unit :=
  fun w => mkRun (Normal tt) (mkWorld (host w) (handlers w ++ [h])) [].

End Script.

Declare Scope script_scope.
Delimit Scope script_scope with script.
Notation "x <- m ;; k" := (bind m (fun x => k))
  (at level 61, m at next level, right associativity) : script_scope.
Notation "m ;; k" := (bind m (fun _ => k))
  (at level 61, right associativity) : script_scope.
Open Scope script_scope.

Section Program.
Context {RT : Runtime} {H : Host}.

(** [for x in l: body(x)] *)
Fixpoint for_each {A} (body : A -> M unit) (l : list A) : M unit :=
  match l with
  | [] => ret tt
  | x :: rest => body x ;; for_each body rest
  end.

(** [for i, x in enumerate(l): body(i, x)], with [i] the next index. *)
Fixpoint for_enumerate {A} (body : nat -> A -> M unit) (l : list A)
    (i : nat) : M unit :=
  match l with
  | [] => ret tt
  | x :: rest => body i x ;; for_enumerate body rest (S i)
  end.

(** [export_entity] tells a component from a body with [isinstance];
    [visible_items] holds nothing else.  An early [return] leaves no
    options to execute. *)
Definition export_entity (entity : Entity) (folder export_format : str)
    : M unit :=
  design <- host_call ActiveProduct ;;
  exportMgr <- host_call (GetExportManager design) ;;
  let filename :=
    sanitize_filename (entity_name entity) ++ lit "."
      ++ get_file_extension export_format in
  let filepath := path_join folder filename in
  options <-
    match entity with
    | EComponent comp =>
        if str_eqb export_format (lit "STEP") then
          options <- host_call
            (CreateSTEPExportOptions exportMgr filepath comp) ;;
          ret (Some options)
        else if str_eqb export_format (lit "IGES") then
          options <- host_call
            (CreateIGESExportOptions exportMgr filepath comp) ;;
          ret (Some options)
        else if str_eqb export_format (lit "SAT") then
          options <- host_call
            (CreateSATExportOptions exportMgr filepath comp) ;;
          ret (Some options)
        else if str_eqb export_format (lit "STL") then
          options <- host_call
            (CreateSTLExportOptions exportMgr (bRepBodies comp) filepath) ;;
          ret (Some options)
        else
          messageBox (lit "Unsupported format: " ++ export_format) ;;
          ret None
    | EBody body =>
        if str_eqb export_format (lit "STL") then
          options <- host_call
            (CreateSTLExportOptions exportMgr [body] filepath) ;;
          ret (Some options)
        else
          messageBox (lit "Bodies can only be exported as STL") ;;
          ret None
    end ;;
  match options with
  | Some options => host_call (Execute exportMgr options) ;; ret tt
  | None => ret tt
  end.

End Program.

(** ** The event callbacks *)

Module CommandCreatedHandler.
Section Notify.
Context {RT : Runtime} {H : Host}.

(** The body of the [try]. *)
Definition body (args : handle) : M unit :=
  cmd <- host_call (GetCommand args) ;;
  inputs <- host_call (GetCommandInputs cmd) ;;
  host_call (AddBoolValueInput inputs (lit "exportComponents")
               (lit "Export Components") true) ;;
  host_call (AddBoolValueInput inputs (lit "exportBodies")
               (lit "Export Bodies") true) ;;
  format_dropdown <- host_call
    (AddDropDownCommandInput inputs (lit "fileFormat") (lit "File Format")
       TextListDropDownStyle) ;;
  for_each
    (fun f =>
       items <- host_call (GetListItems format_dropdown) ;;
       host_call (ListItemsAdd items f (str_eqb f (lit "STEP"))) ;;
       ret tt)
    [lit "STEP"; lit "STL"; lit "IGES"; lit "SAT"] ;;
  host_call (AddTextBoxCommandInput inputs (lit "fileCount")
               (lit "Files to Export") (lit "0") 1 true) ;;
  let onInputChanged := NewInputChangedHandler in
  host_call (InputChangedAdd cmd onInputChanged) ;;
  handlers_append onInputChanged ;;
  let onExecute := NewCommandExecuteHandler in
  host_call (ExecuteAdd cmd onExecute) ;;
  handlers_append onExecute.

Definition failure_text (e : exn) : str :=
  lit "Failed in CommandCreatedHandler:" ++ [10%N] ++ format_exc e.

Definition notify (args : handle) : M unit :=
  try_except (body args) (fun e => messageBox (failure_text e)).

End Notify.
End CommandCreatedHandler.

Module InputChangedHandler.
Section Notify.
Context {RT : Runtime} {H : Host}.

Definition body (args : handle) : M unit :=
  cmdInputs <- host_call (GetInputs args) ;;
  design <- host_call ActiveProduct ;;
  root <- host_call (GetRootComponent design) ;;
  cb <- host_call (ItemById cmdInputs (lit "exportComponents")) ;;
  export_components <- host_call (GetValue cb) ;;
  cb <- host_call (ItemById cmdInputs (lit "exportBodies")) ;;
  export_bodies <- host_call (GetValue cb) ;;
  count_box <- host_call (ItemById cmdInputs (lit "fileCount")) ;;
  let visible_items :=
    get_visible_entities root export_components export_bodies in
  host_call (SetText count_box (py_str (length visible_items))).

Definition failure_text (e : exn) : str :=
  lit "Failed in InputChangedHandler:" ++ [10%N] ++ format_exc e.

Definition notify (args : handle) : M unit :=
  try_except (body args) (fun e => messageBox (failure_text e)).

End Notify.
End InputChangedHandler.

Module CommandExecuteHandler.
Section Notify.
Context {RT : Runtime} {H : Host}.

(** The body of the [for] loop. *)
Definition export_step (progress : handle) (folder export_format : str)
    (i : nat) (item : Entity) : M unit :=
  export_entity item folder export_format ;;
  host_call (SetProgressValue progress (i + 1)).

(** [not folder] *)
Definition falsy (s : str) : bool :=
  match s with [] => true | _ :: _ => false end.

Definition body (args : handle) : M unit :=
  design <- host_call ActiveProduct ;;
  root <- host_call (GetRootComponent design) ;;
  firingEvent <- host_call (GetFiringEvent args) ;;
  sender <- host_call (GetSender firingEvent) ;;
  cmdInputs <- host_call (GetCommandInputs sender) ;;
  cb <- host_call (ItemById cmdInputs (lit "exportComponents")) ;;
  export_components <- host_call (GetValue cb) ;;
  cb <- host_call (ItemById cmdInputs (lit "exportBodies")) ;;
  export_bodies <- host_call (GetValue cb) ;;
  dd <- host_call (ItemById cmdInputs (lit "fileFormat")) ;;
  selectedItem <- host_call (GetSelectedItem dd) ;;
  export_format <- host_call (GetName selectedItem) ;;
  let visible_items :=
    get_visible_entities root export_components export_bodies in
  folder <- host_call
    (SelectFolderDialog (lit "Select folder for exported files")) ;;
  if falsy folder then ret tt
  else
    progress <- host_call CreateProgressDialog ;;
    host_call (SetIsBackgroundTranslucent progress false) ;;
    host_call (ProgressShow progress (lit "Exporting files")
                 (lit "Exporting...") 0 (length visible_items) 1) ;;
    for_enumerate (export_step progress folder export_format)
      visible_items 0 ;;
    host_call (ProgressHide progress) ;;
    messageBox (lit "Exported " ++ py_str (length visible_items)
                  ++ lit " files successfully.").

Definition failure_text (e : exn) : str :=
  lit "Failed in CommandExecuteHandler:" ++ [10%N] ++ format_exc e.

Definition notify (args : handle) : M unit :=
  try_except (body args) (fun e => messageBox (failure_text e)).

End Notify.
End CommandExecuteHandler.

(** ** Observations on a run *)

(** The four export-options constructors of the host's export manager. *)
Inductive constructor := STEP | IGES | SAT | STL.

Definition constructor_of (ev : event) : option constructor :=
  match ev with
  | Called (CreateSTEPExportOptions _ _ _) _ => Some STEP
  | Called (CreateIGESExportOptions _ _ _) _ => Some IGES
  | Called (CreateSATExportOptions _ _ _) _ => Some SAT
  | Called (CreateSTLExportOptions _ _ _) _ => Some STL
  | _ => None
  end.

(** The file path a constructor call was given. *)
Definition filepath_of (ev : event) : option str :=
  match ev with
  | Called (CreateSTEPExportOptions _ p _) _ => Some p
  | Called (CreateIGESExportOptions _ p _) _ => Some p
  | Called (CreateSATExportOptions _ p _) _ => Some p
  | Called (CreateSTLExportOptions _ _ p) _ => Some p
  | _ => None
  end.

Definition is_execute (ev : event) : bool :=
  match ev with
  | Called (Execute _ _) _ => true
  | _ => false
  end.

Definition is_messageBox (ev : event) : bool :=
  match ev with
  | MessageBox _ _ => true
  | _ => false
  end.

Definition is_progress_dialog (ev : event) : bool :=
  match ev with
  | Called CreateProgressDialog _ => true
  | Called (SetIsBackgroundTranslucent _ _) _ => true
  | Called (ProgressShow _ _ _ _ _ _) _ => true
  | Called (SetProgressValue _ _) _ => true
  | Called (ProgressHide _) _ => true
  | _ => false
  end.

(** The host answered the call with a value. *)
Definition returned (ev : event) : bool :=
  match ev with
  | Called _ (Normal _) => true
  | Called _ (Raise _) => false
  | MessageBox _ (Normal _) => true
  | MessageBox _ (Raise _) => false
  end.

(** The exception the host answered the call with. *)
Definition raised (ev : event) : option exn :=
  match ev with
  | Called _ (Raise e) => Some e
  | MessageBox _ (Raise e) => Some e
  | _ => None
  end.

Fixpoint pick {A B} (f : A -> option B) (l : list A) : list B :=
  match l with
  | [] => []
  | x :: rest =>
      match f x with
      | Some y => y :: pick f rest
      | None => pick f rest
      end
  end.

(** The value the progress dialog shows after a sequence of events: the
    one last assigned to it, if the host took the assignment. *)
Fixpoint progress_value (shown : option nat) (tr : list event) : option nat :=
  match tr with
  | [] => shown
  | Called (SetProgressValue _ v) (Normal _) :: rest =>
      progress_value (Some v) rest
  | _ :: rest => progress_value shown rest
  end.

(** ** One runtime and one host, to run the script on

    An instance of each interface, on which the model computes: names in
    ASCII on a POSIX platform, and a host that answers every call, or
    raises at the call it is told to. *)

Definition ascii_isalnum (c : char) : bool :=
  ((48 <=? c) && (c <=? 57) || (65 <=? c) && (c <=? 90)
   || (97 <=? c) && (c <=? 122))%N.

Definition ascii_isspace (c : char) : bool :=
  ((9 <=? c) && (c <=? 13) || (28 <=? c) && (c <=? 32))%N.

Definition SLASH : char := 47%N.

Definition starts_with (c : char) (s : str) : bool :=
  match s with
  | d :: _ => char_eqb d c
  | [] => false
  end.

(** [posixpath.join] of two parts: the second alone when it is absolute,
    else both, with a slash between them unless the first is empty or
    ends with one. *)
Definition posix_join (a b : str) : str :=
  if starts_with SLASH b then b
  else if starts_with SLASH (rev a) then a ++ b
  else match a with
       | [] => b
       | _ :: _ => a ++ [SLASH] ++ b
       end.

Definition plain_format_exc (e : exn) : str :=
  lit "Traceback (most recent call last):" ++ [10%N]
    ++ exn_class e ++ lit ": " ++ exn_message e ++ [10%N].

Definition ascii_runtime : Runtime :=
  {| isalnum := ascii_isalnum;
     isspace := ascii_isspace;
     path_join := posix_join;
     format_exc := plain_format_exc |}.

Record scripted := mkScripted {
  fails_in : option nat;      (* calls left before the one that raises *)
  document : RootComponent;
  components_checked : bool;
  bodies_checked : bool;
  selected_format : str;
  chosen_folder : str;
  box_fails : bool            (* the message box raises *)
}.

Definition RuntimeError : exn :=
  PyExn (lit "RuntimeError") (lit "internal error").
Definition AttributeError : exn :=
  PyExn (lit "AttributeError") (lit "object has no attribute").

Definition scripted_item (id : str) : handle :=
  if str_eqb id (lit "exportComponents") then Handle 1
  else if str_eqb id (lit "exportBodies") then Handle 2
  else if str_eqb id (lit "fileFormat") then Handle 3
  else if str_eqb id (lit "fileCount") then Handle 4
  else Handle 0.

Definition scripted_answer R (c : call R) (st : scripted) : result R :=
  match c in call R return result R with
  | ActiveProduct => Normal (Handle 10)
  | GetRootComponent _ => Normal (document st)
  | GetExportManager _ => Normal (Handle 11)
  | CreateSTEPExportOptions _ _ _ => Normal (Handle 20)
  | CreateIGESExportOptions _ _ _ => Normal (Handle 21)
  | CreateSATExportOptions _ _ _ => Normal (Handle 22)
  | CreateSTLExportOptions _ _ _ => Normal (Handle 23)
  | Execute _ _ => Normal true
  | GetCommand _ => Normal (Handle 12)
  | GetInputs _ => Normal (Handle 13)
  | GetFiringEvent _ => Normal (Handle 14)
  | GetSender _ => Normal (Handle 12)
  | GetCommandInputs _ => Normal (Handle 13)
  | InputChangedAdd _ _ => Normal true
  | ExecuteAdd _ _ => Normal true
  | AddBoolValueInput _ id _ _ => Normal (scripted_item id)
  | AddDropDownCommandInput _ id _ _ => Normal (scripted_item id)
  | GetListItems _ => Normal (Handle 15)
  | ListItemsAdd _ _ _ => Normal (Handle 16)
  | AddTextBoxCommandInput _ id _ _ _ _ => Normal (scripted_item id)
  | ItemById _ id => Normal (scripted_item id)
  | GetValue (Handle 1) => Normal (components_checked st)
  | GetValue (Handle 2) => Normal (bodies_checked st)
  | GetValue _ => Raise AttributeError
  | GetSelectedItem _ => Normal (Handle 17)
  | GetName _ => Normal (selected_format st)
  | SetText _ _ => Normal tt
  | SelectFolderDialog _ => Normal (chosen_folder st)
  | CreateProgressDialog => Normal (Handle 30)
  | SetIsBackgroundTranslucent _ _ => Normal tt
  | ProgressShow _ _ _ _ _ _ => Normal tt
  | SetProgressValue _ _ => Normal tt
  | ProgressHide _ => Normal tt
  end.

Definition scripted_countdown (st : scripted) (n : option nat) : scripted :=
  mkScripted n (document st) (components_checked st) (bodies_checked st)
    (selected_format st) (chosen_folder st) (box_fails st).

Definition scripted_respond R (c : call R) (st : scripted)
    : result R * scripted :=
  match fails_in st with
  | None => (scripted_answer c st, st)
  | Some 0 => (Raise RuntimeError, scripted_countdown st None)
  | Some (S n) => (scripted_answer c st, scripted_countdown st (Some n))
  end.

Definition scripted_display (text : str) (st : scripted)
    : result unit * scripted :=
  if box_fails st then (Raise RuntimeError, st) else (Normal tt, st).

Definition scripted_host : Host :=
  {| host_state := scripted;
     host_respond := scripted_respond;
     host_display := scripted_display |}.

(** A small document: a visible bracket with two bodies, one of them
    hidden, and a hidden cover with one visible body. *)
Definition plate : BRepBody := mkBody (lit "Plate #1 ") true.
Definition rib : BRepBody := mkBody (lit "Rib") false.
Definition lid : BRepBody := mkBody (lit "Lid") true.
Definition bracket : Component := mkComponent (lit "Bracket/A") true [plate; rib].
Definition cover : Component := mkComponent (lit "Cover") false [lid].
Definition sample_root : RootComponent := mkRoot [bracket; cover].

Definition sample_host (fail : option nat) (comps bodies : bool)
    (fmt folder : string) : scripted :=
  mkScripted fail sample_root comps bodies (lit fmt) (lit folder) false.

(** The same host, with a message box that raises. *)
Definition broken_box (st : scripted) : scripted :=
  mkScripted (fails_in st) (document st) (components_checked st)
    (bodies_checked st) (selected_format st) (chosen_folder st) true.

(** The state in which the add-in is loaded: no handler registered yet. *)
Definition start (st : scripted) : @world scripted_host :=
  mkWorld (H:=scripted_host) st [].

(** ** The vocabulary of the properties *)

Section SanitizeSpec.
Context {RT : Runtime}.

(** The allow-list: alphanumeric, space, '.', '_', '-'. *)
Definition Allowed (c : char) : Prop :=
  isalnum c = true \/ In c [SPACE; DOT; UNDERSCORE; HYPHEN].

(** [Stripped name kept]: [kept] is [name] with every character outside
    the allow-list removed, the others kept in their order. *)
Inductive Stripped : str -> str -> Prop :=
| Stripped_nil : Stripped [] []
| Stripped_keep c name kept :
    Allowed c -> Stripped name kept -> Stripped (c :: name) (c :: kept)
| Stripped_drop c name kept :
    ~ Allowed c -> Stripped name kept -> Stripped (c :: name) kept.

(** [r] is [kept] without its trailing whitespace. *)
Definition Trimmed (kept r : str) : Prop :=
  exists ws,
    kept = r ++ ws
    /\ forallb isspace ws = true
    /\ forall r' c, r = r' ++ [c] -> isspace c = false.

End SanitizeSpec.

(** The supported combinations: which constructor an entity and a format
    tag call for. *)
Inductive Supported : Entity -> str -> constructor -> Prop :=
| Supported_STEP c : Supported (EComponent c) (lit "STEP") STEP
| Supported_IGES c : Supported (EComponent c) (lit "IGES") IGES
| Supported_SAT c : Supported (EComponent c) (lit "SAT") SAT
| Supported_STL c : Supported (EComponent c) (lit "STL") STL
| Supported_body b : Supported (EBody b) (lit "STL") STL.

(** The same table as a function; [None] for an unsupported combination. *)
Definition selected (entity : Entity) (export_format : str)
    : option constructor :=
  match entity with
  | EComponent _ =>
      if str_eqb export_format (lit "STEP") then Some STEP
      else if str_eqb export_format (lit "STL") then Some STL
      else if str_eqb export_format (lit "IGES") then Some IGES
      else if str_eqb export_format (lit "SAT") then Some SAT
      else None
  | EBody _ =>
      if str_eqb export_format (lit "STL") then Some STL else None
  end.

(** No event of the kind [p] among [tr]. *)
Definition no_event (p : event -> bool) (tr : list event) : Prop :=
  existsb p tr = false.

(** The table of file extensions. *)
Definition extension_for (export_format ext : str) : Prop :=
  (export_format = lit "STEP" /\ ext = lit "step")
  \/ (export_format = lit "STL" /\ ext = lit "stl")
  \/ (export_format = lit "IGES" /\ ext = lit "igs")
  \/ (export_format = lit "SAT" /\ ext = lit "sat")
  \/ (~ In export_format [lit "STEP"; lit "STL"; lit "IGES"; lit "SAT"]
      /\ ext = lit "stp").

(** A run that stops at the first call that raises, with the exception
    of that call. *)
Definition stopped_at_failure {H : Host} {A} (r : run A) : Prop :=
  match outcome r with
  | Normal _ => forallb returned (events r) = true
  | Raise e =>
      exists before failed,
        events r = before ++ [failed]
        /\ forallb returned before = true
        /\ raised failed = Some e
  end.

Definition stops_at_failure {H : Host} {A} (m : M A) : Prop :=
  forall w, stopped_at_failure (m w).

(** What a callback does with the run of its body: nothing more when the
    body returned; when a call of the body raised, one message box with
    the stack trace of that exception, right after the call, and the
    callback ends the way the message box did. *)
Definition catches {RT : Runtime} {H : Host} (prefix : str)
    (body_run notify_run : run unit) : Prop :=
  match outcome body_run with
  | Normal _ =>
      notify_run = body_run /\ forallb returned (events notify_run) = true
  | Raise e =>
      exists before failed answer,
        events notify_run
        = before
          ++ [failed; MessageBox (prefix ++ [10%N] ++ format_exc e) answer]
        /\ forallb returned before = true
        /\ raised failed = Some e
        /\ outcome notify_run = answer
  end.

(** The text a call of [SetText] that returned has set. *)
Definition text_set (ev : event) : option str :=
  match ev with
  | Called (SetText _ text) (Normal _) => Some text
  | _ => None
  end.

(** What the host answered about the selection: the root component, and
    the values of the checkboxes. *)
Definition selection (ev : event) : option (RootComponent + bool) :=
  match ev with
  | Called (GetRootComponent _) (Normal root) => Some (inl root)
  | Called (GetValue _) (Normal value) => Some (inr value)
  | _ => None
  end.

(** An assignment to the progress value: the end of an iteration of the
    export loop. *)
Definition is_assignment (ev : event) : bool :=
  match ev with
  | Called (SetProgressValue _ _) _ => true
  | _ => false
  end.

(** ** The phases of command execution

    The body of [CommandExecuteHandler.notify] is one block; to speak of
    the loop in it, the block is cut here into what comes before the loop,
    the loop, and what comes after. *)

Record session := mkSession {
  visible_items : list Entity;
  folder : str;
  export_format : str;
  progress : handle
}.

Section Phases.
Context {RT : Runtime} {H : Host}.

(** Everything up to [progress.show]; [None] when no folder was chosen. *)
Definition prepare (args : handle) : M (option session) :=
  design <- host_call ActiveProduct ;;
  root <- host_call (GetRootComponent design) ;;
  firingEvent <- host_call (GetFiringEvent args) ;;
  sender <- host_call (GetSender firingEvent) ;;
  cmdInputs <- host_call (GetCommandInputs sender) ;;
  cb <- host_call (ItemById cmdInputs (lit "exportComponents")) ;;
  export_components <- host_call (GetValue cb) ;;
  cb <- host_call (ItemById cmdInputs (lit "exportBodies")) ;;
  export_bodies <- host_call (GetValue cb) ;;
  dd <- host_call (ItemById cmdInputs (lit "fileFormat")) ;;
  selectedItem <- host_call (GetSelectedItem dd) ;;
  export_format <- host_call (GetName selectedItem) ;;
  let visible_items :=
    get_visible_entities root export_components export_bodies in
  folder <- host_call
    (SelectFolderDialog (lit "Select folder for exported files")) ;;
  if CommandExecuteHandler.falsy folder then ret None
  else
    progress <- host_call CreateProgressDialog ;;
    host_call (SetIsBackgroundTranslucent progress false) ;;
    host_call (ProgressShow progress (lit "Exporting files")
                 (lit "Exporting...") 0 (length visible_items) 1) ;;
    ret (Some (mkSession visible_items folder export_format progress)).

(** The loop, from index [i] on. *)
Definition export_loop (s : session) (items : list Entity) (i : nat)
    : M unit :=
  for_enumerate
    (CommandExecuteHandler.export_step (progress s) (folder s)
       (export_format s))
    items i.

(** What follows the loop. *)
Definition finish (s : session) : M unit :=
  host_call (ProgressHide (progress s)) ;;
  messageBox (lit "Exported " ++ py_str (length (visible_items s))
                ++ lit " files successfully.").

Definition phases (args : handle) : M unit :=
  s <- prepare args ;;
  match s with
  | None => ret tt
  | Some s => export_loop s (visible_items s) 0 ;; finish s
  end.

End Phases.

(** The folder dialog came back without a folder. *)
Definition no_folder_chosen (ev : event) : bool :=
  match ev with
  | Called (SelectFolderDialog _) (Normal []) => true
  | _ => false
  end.

(** The events the export loop can cause. *)
Definition loop_event (ev : event) : bool :=
  match ev with
  | Called ActiveProduct _ => true
  | Called (GetExportManager _) _ => true
  | Called (CreateSTEPExportOptions _ _ _) _ => true
  | Called (CreateIGESExportOptions _ _ _) _ => true
  | Called (CreateSATExportOptions _ _ _) _ => true
  | Called (CreateSTLExportOptions _ _ _) _ => true
  | Called (Execute _ _) _ => true
  | Called (SetProgressValue _ _) _ => true
  | MessageBox _ _ => true
  | _ => false
  end.

(** The sample document with both boxes checked, and the session the
    execute callback prepares on it for STL into [/out]. *)
Definition sample_world (fail : option nat) (fmt folder : string)
    : @world scripted_host :=
  start (sample_host fail true true fmt folder).

Definition sample_session : session :=
  mkSession [EComponent bracket; EBody plate; EBody lid]
    (lit "/out") (lit "STL") (Handle 30).

(** ** Starting and stopping the add-in

    [run] and [stop] talk to another part of the host: the workspaces,
    their toolbar panels, and the command definitions.  A lookup by id
    answers [None] when there is no such object; in a test such as
    [if not cmdDef], an object counts as true and [None] as false. *)

Definition CMD_ID : str := lit "ExportVisibleFiles".
Definition CMD_NAME : str := lit "Export Visible Files".
Definition CMD_TOOLTIP : str :=
  lit "Export all visible components and bodies to separate files".
Definition WORKSPACE_ID : str := lit "FusionSolidEnvironment".
Definition PANEL_ID : str := lit "SolidCreatePanel".
Definition ICON_FOLDER : str := lit "./resources/".

Inductive ui_call : Type -> Type :=
| WorkspacesItemById (id : str) : ui_call (option handle)
| ToolbarPanelsItemById (workspace : handle) (id : str)
    : ui_call (option handle)
| CommandDefinitionsItemById (id : str) : ui_call (option handle)
| AddButtonDefinition (id name tooltip resourceFolder : str)
    : ui_call (option handle)
| CommandCreatedAdd (cmdDef : handle) (h : handler) : ui_call bool
| ControlsAddCommand (panel cmdDef : handle) : ui_call (option handle)
| ControlsItemById (panel : handle) (id : str) : ui_call (option handle)
| DeleteMe (obj : handle) : ui_call bool.

(** A host that also answers these calls. *)
Class UIHost (H : Host) := {
  ui_respond : forall R, ui_call R -> host_state -> result R * host_state
}.

(** What an observer sees of [run] and [stop]: their calls with the
    answers, and the events of the script they share the rest with. *)
Inductive ui_event :=
| UICalled (R : Type) (c : ui_call R) (r : result R)
| Script (ev : event).

(** Reading an attribute of [None]. *)
Definition NoneAttributeError (attribute : string) : exn :=
  PyExn (lit "AttributeError")
    (lit "'NoneType' object has no attribute '" ++ lit attribute ++ lit "'").

Section AddInMonad.
Context {H : Host} {U : UIHost H}.

Record ui_run (A : Type) := mkUIRun {
  ui_outcome : result A;
  ui_final : world;
  ui_events : list ui_event
}.

Definition L (A : Type) := world -> ui_run A.

Definition ui_ret {A} (a : A) : L A := fun w => mkUIRun (Normal a) w [].

Definition ui_raise {A} (e : exn) : L A := fun w => mkUIRun (Raise e) w [].

Definition ui_after {A} (before : list ui_event) (r : ui_run A) : ui_run A :=
  match r with
  | mkUIRun o w' t => mkUIRun o w' (before ++ t)
  end.

Definition ui_bind {A B} (m : L A) (k : A -> L B) : L B :=
  fun w =>
    match m w with
    | mkUIRun (Normal a) w' t => ui_after t (k a w')
    | mkUIRun (Raise e) w' t => mkUIRun (Raise e) w' t
    end.

Definition ui_try_except {A} (body : L A) (handle_exc : exn -> L A) : L A :=
  fun w =>
    match body w with
    | mkUIRun (Normal a) w' t => mkUIRun (Normal a) w' t
    | mkUIRun (Raise e) w' t => ui_after t (handle_exc e w')
    end.

Definition ui_host_call {R} (c : ui_call R) : L R :=
  fun w =>
    let (r, h') := ui_respond c (host w) in
    mkUIRun r (mkWorld h' (handlers w)) [UICalled c r].

(** A piece of the script, run as it is. *)
Definition lift {A} (m : M A) : L A :=
  fun w =>
    match m w with
    | mkRun o w' t => mkUIRun o w' (map Script t)
    end.

(** [obj.attribute], where [obj] may be [None]: the object itself when
    there is one, for the call on that attribute to name. *)
Definition attr (obj : option handle) (attribute : string) : L handle :=
  match obj with
  | Some h => ui_ret h
  | None => ui_raise (NoneAttributeError attribute)
  end.

End AddInMonad.

Declare Scope addin_scope.
Delimit Scope addin_scope with addin.
Notation "x <- m ;; k" := (ui_bind m (fun x => k))
  (at level 61, m at next level, right associativity) : addin_scope.
Notation "m ;; k" := (ui_bind m (fun _ => k))
  (at level 61, right associativity) : addin_scope.

Module AddIn.
Section StartStop.
Context {RT : Runtime} {H : Host} {U : UIHost H}.
Local Open Scope addin_scope.

(** The body of the [try] of [run]. *)
Definition run_body (context : handle) : L unit :=
  workspace <- ui_host_call (WorkspacesItemById WORKSPACE_ID) ;;
  the_workspace <- attr workspace "toolbarPanels" ;;
  panel <- ui_host_call (ToolbarPanelsItemById the_workspace PANEL_ID) ;;
  cmdDef <- ui_host_call (CommandDefinitionsItemById CMD_ID) ;;
  cmdDef <-
    match cmdDef with
    | Some d => ui_ret (Some d)
    | None =>
        ui_host_call
          (AddButtonDefinition CMD_ID CMD_NAME CMD_TOOLTIP ICON_FOLDER)
    end ;;
  let onCreated := NewCommandCreatedHandler in
  the_cmdDef <- attr cmdDef "commandCreated" ;;
  ui_host_call (CommandCreatedAdd the_cmdDef onCreated) ;;
  lift (handlers_append onCreated) ;;
  the_panel <- attr panel "controls" ;;
  ui_host_call (ControlsAddCommand the_panel the_cmdDef) ;;
  ui_ret tt.

Definition startup_text (e : exn) : str :=
  lit "Add-in startup failed:" ++ [10%N] ++ format_exc e.

Definition run (context : handle) : L unit :=
  ui_try_except (run_body context)
    (fun e => lift (messageBox (startup_text e))).

(** The body of the [try] of [stop]. *)
Definition stop_body (context : handle) : L unit :=
  workspace <- ui_host_call (WorkspacesItemById WORKSPACE_ID) ;;
  the_workspace <- attr workspace "toolbarPanels" ;;
  panel <- ui_host_call (ToolbarPanelsItemById the_workspace PANEL_ID) ;;
  the_panel <- attr panel "controls" ;;
  ctrl <- ui_host_call (ControlsItemById the_panel CMD_ID) ;;
  match ctrl with
  | Some c => ui_host_call (DeleteMe c) ;; ui_ret tt
  | None => ui_ret tt
  end ;;
  cmdDef <- ui_host_call (CommandDefinitionsItemById CMD_ID) ;;
  match cmdDef with
  | Some d => ui_host_call (DeleteMe d) ;; ui_ret tt
  | None => ui_ret tt
  end.

Definition shutdown_text (e : exn) : str :=
  lit "Add-in shutdown failed:" ++ [10%N] ++ format_exc e.

Definition stop (context : handle) : L unit :=
  ui_try_except (stop_body context)
    (fun e => lift (messageBox (shutdown_text e))).

End StartStop.
End AddIn.

(** ** Observations on the add-in's events *)

Definition ui_message (ev : ui_event) : option str :=
  match ev with
  | Script (MessageBox text _) => Some text
  | _ => None
  end.

Definition ui_is_messageBox (ev : ui_event) : bool :=
  match ui_message ev with Some _ => true | None => false end.

(** The arguments of a call of [addButtonDefinition]. *)
Definition button_added (ev : ui_event) : option (str * str * str * str) :=
  match ev with
  | UICalled (AddButtonDefinition id name tooltip folder) _ =>
      Some (id, name, tooltip, folder)
  | _ => None
  end.

(** The lookup of the command definition found one. *)
Definition definition_found (ev : ui_event) : bool :=
  match ev with
  | UICalled (CommandDefinitionsItemById _) (Normal (Some _)) => true
  | _ => false
  end.

(** A command definition was found, or added. *)
Definition definition_obtained (ev : ui_event) : bool :=
  match ev with
  | UICalled (CommandDefinitionsItemById _) (Normal (Some _)) => true
  | UICalled (AddButtonDefinition _ _ _ _) (Normal (Some _)) => true
  | _ => false
  end.

Definition is_definition_lookup (ev : ui_event) : bool :=
  match ev with
  | UICalled (CommandDefinitionsItemById _) _ => true
  | _ => false
  end.

(** The workspace or the panel was looked up and is not there. *)
Definition place_missing (ev : ui_event) : bool :=
  match ev with
  | UICalled (WorkspacesItemById _) (Normal None) => true
  | UICalled (ToolbarPanelsItemById _ _) (Normal None) => true
  | _ => false
  end.

Definition panel_missing (ev : ui_event) : bool :=
  match ev with
  | UICalled (ToolbarPanelsItemById _ _) (Normal None) => true
  | _ => false
  end.

(** The handler a registration that returned was given. *)
Definition created_registered (ev : ui_event) : option handler :=
  match ev with
  | UICalled (CommandCreatedAdd _ h) (Normal _) => Some h
  | _ => None
  end.

Definition is_add_command (ev : ui_event) : bool :=
  match ev with
  | UICalled (ControlsAddCommand _ _) _ => true
  | _ => false
  end.

(** The object [deleteMe] was called on. *)
Definition deleted (ev : ui_event) : option handle :=
  match ev with
  | UICalled (DeleteMe obj) _ => Some obj
  | _ => None
  end.


(** The host answered the call with a value. *)
Definition ui_returned (ev : ui_event) : bool :=
  match ev with
  | UICalled _ (Normal _) => true
  | UICalled _ (Raise _) => false
  | Script ev => returned ev
  end.

(** The exception the host answered the call with. *)
Definition ui_raised (ev : ui_event) : option exn :=
  match ev with
  | UICalled _ (Raise e) => Some e
  | UICalled _ (Normal _) => None
  | Script ev => raised ev
  end.

(** The host answered the call with [None]. *)
Definition answered_none (ev : ui_event) : bool :=
  match ev with
  | UICalled (WorkspacesItemById _) (Normal None) => true
  | UICalled (ToolbarPanelsItemById _ _) (Normal None) => true
  | UICalled (CommandDefinitionsItemById _) (Normal None) => true
  | UICalled (AddButtonDefinition _ _ _ _) (Normal None) => true
  | UICalled (ControlsAddCommand _ _) (Normal None) => true
  | UICalled (ControlsItemById _ _) (Normal None) => true
  | _ => false
  end.

(** Why the body of [run] or [stop] raised [e]: its last call raised it,
    or every call returned, one of them with [None], and [e] is the
    error of reading an attribute of [None]. *)
Definition ui_failure (body_events : list ui_event) (e : exn) : Prop :=
  (exists before failed,
      body_events = before ++ [failed]
      /\ forallb ui_returned before = true
      /\ ui_raised failed = Some e)
  \/ (forallb ui_returned body_events = true
      /\ existsb answered_none body_events = true
      /\ exists attribute, e = NoneAttributeError attribute).

(** What [run] and [stop] do with the run of their body: nothing more
    when the body returned; when it raised, one message box with the
    stack trace of that exception, and they end the way the message box
    did. *)
Definition ui_catches {RT : Runtime} {H : Host} {U : UIHost H}
    (prefix : str) (body_run whole_run : ui_run unit) : Prop :=
  match ui_outcome body_run with
  | Normal _ =>
      whole_run = body_run
      /\ forallb ui_returned (ui_events whole_run) = true
  | Raise e =>
      exists answer,
        ui_events whole_run
        = ui_events body_run
          ++ [Script (MessageBox (prefix ++ [10%N] ++ format_exc e) answer)]
        /\ ui_failure (ui_events body_run) e
        /\ ui_outcome whole_run = answer
  end.





(** ** More observations on the callbacks *)

(** The handler a registration on the command that returned was given. *)
Definition registered (ev : event) : option handler :=
  match ev with
  | Called (InputChangedAdd _ h) (Normal _) => Some h
  | Called (ExecuteAdd _ h) (Normal _) => Some h
  | _ => None
  end.

(** An item added to the format dropdown: its name, and whether it is
    the selected one. *)
Definition list_item (ev : event) : option (str * bool) :=
  match ev with
  | Called (ListItemsAdd _ name isSelected) _ => Some (name, isSelected)
  | _ => None
  end.

(** The items of the format dropdown: the formats of the [for] loop, the
    first of them selected. *)
Definition dropdown_items : list (str * bool) :=
  [(lit "STEP", true); (lit "STL", false); (lit "IGES", false);
   (lit "SAT", false)].

(** The ids of the command inputs, in the order they are added. *)
Definition input_ids : list str :=
  [lit "exportComponents"; lit "exportBodies"; lit "fileFormat";
   lit "fileCount"].

(** The id of a command input that was added. *)
Definition added_input (ev : event) : option str :=
  match ev with
  | Called (AddBoolValueInput _ id _ _) (Normal _) => Some id
  | Called (AddDropDownCommandInput _ id _ _) (Normal _) => Some id
  | Called (AddTextBoxCommandInput _ id _ _ _ _) (Normal _) => Some id
  | _ => None
  end.

(** The id a command input was looked up by. *)
Definition looked_up (ev : event) : option str :=
  match ev with
  | Called (ItemById _ id) _ => Some id
  | _ => None
  end.

Definition is_hide (ev : event) : bool :=
  match ev with
  | Called (ProgressHide _) _ => true
  | _ => false
  end.

(** The combination of the item and the format tag is a supported one. *)
Definition supported_item (export_format : str) (item : Entity) : bool :=
  match selected item export_format with
  | Some _ => true
  | None => false
  end.

(** A piece of the script that leaves the list [handlers] as it is. *)
Definition keeps_handlers {H : Host} {A} (m : M A) : Prop :=
  forall w, handlers (final (m w)) = handlers w.

(** ** A host that keeps track of what is installed

    The scripted host, with the objects [run] and [stop] look up. *)

Record installed := mkInstalled {
  base : scripted;
  workspace_present : bool;
  panel_present : bool;
  definition_present : bool;
  control_present : bool
}.

Definition installed_base (st : installed) (b : scripted) : installed :=
  mkInstalled b (workspace_present st) (panel_present st)
    (definition_present st) (control_present st).

Definition installed_respond R (c : call R) (st : installed)
    : result R * installed :=
  let (r, b) := scripted_respond c (base st) in (r, installed_base st b).

Definition present (p : bool) (h : handle) : option handle :=
  if p then Some h else None.

Definition installed_answer R (c : ui_call R) (st : installed)
    : result R * installed :=
  match c in ui_call R return result R * installed with
  | WorkspacesItemById _ =>
      (Normal (present (workspace_present st) (Handle 40)), st)
  | ToolbarPanelsItemById _ _ =>
      (Normal (present (panel_present st) (Handle 41)), st)
  | CommandDefinitionsItemById _ =>
      (Normal (present (definition_present st) (Handle 42)), st)
  | AddButtonDefinition _ _ _ _ =>
      (Normal (Some (Handle 42)),
       mkInstalled (base st) (workspace_present st) (panel_present st) true
         (control_present st))
  | CommandCreatedAdd _ _ => (Normal true, st)
  | ControlsAddCommand _ _ =>
      (Normal (Some (Handle 43)),
       mkInstalled (base st) (workspace_present st) (panel_present st)
         (definition_present st) true)
  | ControlsItemById _ _ =>
      (Normal (present (control_present st) (Handle 43)), st)
  | DeleteMe (Handle 42) =>
      (Normal true,
       mkInstalled (base st) (workspace_present st) (panel_present st) false
         (control_present st))
  | DeleteMe (Handle 43) =>
      (Normal true,
       mkInstalled (base st) (workspace_present st) (panel_present st)
         (definition_present st) false)
  | DeleteMe _ => (Normal false, st)
  end.

Definition installed_ui_respond R (c : ui_call R) (st : installed)
    : result R * installed :=
  match fails_in (base st) with
  | None => installed_answer c st
  | Some 0 =>
      (Raise RuntimeError,
       installed_base st (scripted_countdown (base st) None))
  | Some (S n) =>
      installed_answer c
        (installed_base st (scripted_countdown (base st) (Some n)))
  end.

Definition installed_display (text : str) (st : installed)
    : result unit * installed :=
  let (r, b) := scripted_display text (base st) in (r, installed_base st b).

Definition installed_host : Host :=
  {| host_state := installed;
     host_respond := installed_respond;
     host_display := installed_display |}.

Definition installed_ui : UIHost installed_host :=
  @Build_UIHost installed_host installed_ui_respond.

(** The host before the add-in is loaded: the workspace is there, the
    panel too if [panel], and neither the definition nor the control. *)
Definition fresh (fail : option nat) (panel : bool) : @world installed_host :=
  mkWorld (H:=installed_host)
    (mkInstalled (sample_host fail true true "STEP" "/out") true panel
       false false)
    [].

(** ** Tactics *)

(** Unfold the monad and the projections of a run, nothing else. *)
Ltac run_script :=
  unfold bind, try_except, host_call, messageBox, ret, handlers_append;
  cbn [after for_each outcome final events host handlers app].

(** Compute the observations on a list of events. *)
Ltac observe :=
  cbn [forallb existsb pick map app andb orb negb returned constructor_of
       filepath_of is_execute is_messageBox is_progress_dialog
       progress_value].

(** Decide the comparisons of two literals. *)
Ltac compare_literals :=
  repeat match goal with
  | |- context [str_eqb (lit ?a) (lit ?b)] =>
      let v := eval vm_compute in (str_eqb (lit a) (lit b)) in
      change (str_eqb (lit a) (lit b)) with v
  end.

(** Answer the next host call of the goal in both ways. *)
Ltac answer :=
  match goal with
  | |- context [host_respond ?c ?h] =>
      let v := fresh "v" in
      let e := fresh "e" in
      let h' := fresh "h" in
      destruct (host_respond c h) as [[v|e] h'] eqn:?; run_script
  | |- context [host_display ?t ?h] =>
      let e := fresh "e" in
      let h' := fresh "h" in
      destruct (host_display t h) as [[[]|e] h'] eqn:?; run_script
  end.

(** Unfold the monad of [run] and [stop]. *)
Ltac run_addin :=
  unfold ui_bind, ui_try_except, ui_host_call, lift, attr, ui_ret, ui_raise,
    messageBox, handlers_append;
  cbn [ui_after ui_outcome ui_final ui_events host handlers app map].

(** Go through every way the host can answer [run] or [stop]. *)
Ltac addin_cases :=
  repeat first
    [ match goal with
      | |- context [ui_respond ?c ?h] =>
          let v := fresh "v" in
          let e := fresh "e" in
          let h' := fresh "h" in
          destruct (ui_respond c h) as [[v|e] h'] eqn:?; run_addin
      end
    | match goal with
      | |- context [host_display ?t ?h] =>
          let e := fresh "e" in
          let h' := fresh "h" in
          destruct (host_display t h) as [[[]|e] h'] eqn:?; run_addin
      end
    | match goal with
      | |- context [match ?o with Some _ => _ | None => _ end] =>
          is_var o; destruct o; run_addin
      end ].

(** * Properties *)

(** ** Strings *)

Lemma str_eqb_eq (a b : str) : str_eqb a b = true <-> a = b.
Proof.
  revert b; induction a as [|x a IH]; intros [|y b]; simpl;
    try (split; [discriminate | congruence]); try tauto.
  rewrite andb_true_iff, IH. unfold char_eqb. rewrite N.eqb_eq.
  split; [intros [-> ->]; reflexivity | intros E; inversion E; auto].
Qed.

Lemma str_eqb_neq (a b : str) : str_eqb a b = false <-> a <> b.
Proof.
  rewrite <- str_eqb_eq. destruct (str_eqb a b); split; congruence.
Qed.

Lemma str_eqb_refl (a : str) : str_eqb a a = true.
Proof. apply str_eqb_eq; reflexivity. Qed.

(** ** The visibility scan *)

Lemma visible_components_filter (cs : list Component) :
  visible_components cs = map EComponent (filter comp_isVisible cs).
Proof.
  induction cs as [|c cs IH]; simpl; [reflexivity|].
  destruct (comp_isVisible c); simpl; rewrite IH; reflexivity.
Qed.

Lemma visible_bodies_of_filter (bs : list BRepBody) :
  visible_bodies_of bs = map EBody (filter body_isVisible bs).
Proof.
  induction bs as [|b bs IH]; simpl; [reflexivity|].
  destruct (body_isVisible b); simpl; rewrite IH; reflexivity.
Qed.

Lemma visible_bodies_filter (cs : list Component) :
  visible_bodies cs
  = map EBody (filter body_isVisible (flat_map bRepBodies cs)).
Proof.
  induction cs as [|c cs IH]; simpl; [reflexivity|].
  rewrite filter_app, map_app, IH, visible_bodies_of_filter. reflexivity.
Qed.

(** C3.  For every root component and both booleans, [get_visible_entities]
    returns the components under the root whose visibility flag is set (when
    [export_components] holds), followed by the bodies, of every component
    under the root, whose visibility flag is set (when [export_bodies]
    holds); with both booleans false it returns the empty list. *)
Theorem get_visible_entities_spec
    (root : RootComponent) (export_components export_bodies : bool) :
  get_visible_entities root export_components export_bodies
  = (if export_components
     then map EComponent (filter comp_isVisible (allComponents root))
     else [])
    ++ (if export_bodies
        then map EBody
               (filter body_isVisible
                  (flat_map bRepBodies (allComponents root)))
        else [])
  /\ get_visible_entities root false false = [].
Proof.
  split; [|reflexivity].
  unfold get_visible_entities.
  rewrite <- visible_components_filter, <- visible_bodies_filter.
  destruct export_components, export_bodies; simpl;
    rewrite ?app_nil_r; reflexivity.
Qed.

Lemma get_visible_entities_length
    (root : RootComponent) (export_components export_bodies : bool) :
  length (get_visible_entities root export_components export_bodies)
  = (if export_components
     then length (filter comp_isVisible (allComponents root)) else 0)
    + (if export_bodies
       then length (filter body_isVisible
                      (flat_map bRepBodies (allComponents root)))
       else 0).
Proof.
  unfold get_visible_entities.
  rewrite visible_components_filter, visible_bodies_filter.
  destruct export_components, export_bodies; simpl;
    rewrite ?length_app, ?length_map; simpl; lia.
Qed.

(** ** File names *)

Section SanitizeFacts.
Context {RT : Runtime}.

Lemma allowed_spec (c : char) : allowed c = true <-> Allowed c.
Proof.
  unfold allowed, Allowed, in_tuple, char_eqb. simpl.
  rewrite !orb_true_iff, !N.eqb_eq. intuition congruence.
Qed.

Lemma not_allowed_spec (c : char) : allowed c = false <-> ~ Allowed c.
Proof.
  rewrite <- allowed_spec. destruct (allowed c); split; congruence.
Qed.

Lemma Stripped_filter (name : str) : Stripped name (filter allowed name).
Proof.
  induction name as [|c name IH]; simpl; [constructor|].
  destruct (allowed c) eqn:E.
  - apply Stripped_keep; [apply allowed_spec, E | exact IH].
  - apply Stripped_drop; [apply not_allowed_spec, E | exact IH].
Qed.

Lemma Stripped_unique (name kept : str) :
  Stripped name kept -> kept = filter allowed name.
Proof.
  induction 1 as [|c name kept E _ IH|c name kept E _ IH]; simpl.
  - reflexivity.
  - apply allowed_spec in E. rewrite E. congruence.
  - apply not_allowed_spec in E. rewrite E. exact IH.
Qed.

Lemma dropwhile_app_all (p : char -> bool) (a b : str) :
  forallb p a = true -> dropwhile p (a ++ b) = dropwhile p b.
Proof.
  induction a as [|c a IH]; simpl; [reflexivity|].
  intros E. apply andb_true_iff in E as [-> E]. auto.
Qed.

Lemma dropwhile_split (p : char -> bool) (s : str) :
  exists ws,
    s = ws ++ dropwhile p s
    /\ forallb p ws = true
    /\ forall c t, dropwhile p s = c :: t -> p c = false.
Proof.
  induction s as [|c s (ws & E & A & B)]; simpl.
  - exists []. repeat split; auto. discriminate.
  - destruct (p c) eqn:P.
    + exists (c :: ws). simpl. rewrite P, A. repeat split; auto.
      congruence.
    + exists []. repeat split; auto. intros c' t [= <- _]. exact P.
Qed.

Lemma dropwhile_fixed (p : char -> bool) (s : str) :
  (forall c t, s = c :: t -> p c = false) -> dropwhile p s = s.
Proof.
  destruct s as [|c t]; simpl; [reflexivity|].
  intros F. rewrite (F c t eq_refl). reflexivity.
Qed.

Lemma dropwhile_idem (p : char -> bool) (s : str) :
  dropwhile p (dropwhile p s) = dropwhile p s.
Proof.
  destruct (dropwhile_split p s) as (ws & _ & _ & F).
  apply dropwhile_fixed, F.
Qed.

Lemma forallb_rev (p : char -> bool) (s : str) :
  forallb p (rev s) = forallb p s.
Proof.
  induction s as [|c s IH]; simpl; [reflexivity|].
  rewrite forallb_app, IH. simpl. rewrite andb_true_r, andb_comm.
  reflexivity.
Qed.

Lemma rstrip_Trimmed (s : str) : Trimmed s (rstrip s).
Proof.
  unfold Trimmed, rstrip.
  destruct (dropwhile_split isspace (rev s)) as (ws & E & A & F).
  exists (rev ws). split; [|split].
  - rewrite <- rev_app_distr, <- E, rev_involutive. reflexivity.
  - rewrite forallb_rev. exact A.
  - intros r' c R. apply (F c (rev r')).
    rewrite <- (rev_involutive (dropwhile isspace (rev s))), R.
    rewrite rev_app_distr. reflexivity.
Qed.

Lemma Trimmed_unique (kept r : str) : Trimmed kept r -> r = rstrip kept.
Proof.
  intros (ws & -> & A & F). unfold rstrip.
  rewrite rev_app_distr, dropwhile_app_all by (rewrite forallb_rev; exact A).
  rewrite dropwhile_fixed, rev_involutive; [reflexivity|].
  intros c t R. apply (F (rev t) c).
  rewrite <- (rev_involutive r), R. reflexivity.
Qed.

Lemma rstrip_idem (s : str) : rstrip (rstrip s) = rstrip s.
Proof.
  unfold rstrip. rewrite rev_involutive, dropwhile_idem. reflexivity.
Qed.

Lemma filter_fixed (s : str) :
  forallb allowed s = true -> filter allowed s = s.
Proof.
  induction s as [|c s IH]; simpl; [reflexivity|].
  intros E. apply andb_true_iff in E as [-> E]. rewrite IH; auto.
Qed.

Lemma forallb_filter_allowed (s : str) :
  forallb allowed (filter allowed s) = true.
Proof.
  induction s as [|c s IH]; simpl; [reflexivity|].
  destruct (allowed c) eqn:E; simpl; rewrite ?E; auto.
Qed.

Lemma sanitize_filename_allowed (name : str) :
  forallb allowed (sanitize_filename name) = true.
Proof.
  unfold sanitize_filename.
  destruct (rstrip_Trimmed (filter allowed name)) as (ws & E & _).
  pose proof (forallb_filter_allowed name) as F.
  rewrite E, forallb_app in F. apply andb_true_iff in F. tauto.
Qed.

End SanitizeFacts.

(** C4.  For every name, [sanitize_filename] returns exactly the string
    obtained by keeping the characters that are alphanumeric or one of
    space, '.', '_', '-', in their order, all others stripped, and then
    removing the trailing whitespace of what was kept. *)
Theorem sanitize_filename_spec {RT : Runtime} (name r : str) :
  sanitize_filename name = r
  <-> exists kept, Stripped name kept /\ Trimmed kept r.
Proof.
  unfold sanitize_filename. split.
  - intros <-. exists (filter allowed name).
    split; [apply Stripped_filter | apply rstrip_Trimmed].
  - intros (kept & S & T). apply Stripped_unique in S. subst kept.
    symmetry. apply Trimmed_unique, T.
Qed.

(** C9.  [sanitize_filename] is idempotent. *)
Theorem sanitize_filename_idempotent {RT : Runtime} (s : str) :
  sanitize_filename (sanitize_filename s) = sanitize_filename s.
Proof.
  pose proof (sanitize_filename_allowed s) as A.
  unfold sanitize_filename at 1.
  rewrite (filter_fixed _ A).
  unfold sanitize_filename. apply rstrip_idem.
Qed.

(** ** Running the script *)

Section RunFacts.
Context {H : Host}.

Lemma after_outcome {A} (t : list event) (r : run A) :
  outcome (after t r) = outcome r.
Proof. destruct r; reflexivity. Qed.

Lemma after_final {A} (t : list event) (r : run A) :
  final (after t r) = final r.
Proof. destruct r; reflexivity. Qed.

Lemma after_events {A} (t : list event) (r : run A) :
  events (after t r) = t ++ events r.
Proof. destruct r; reflexivity. Qed.

Lemma bind_normal {A B} (m : M A) (k : A -> M B) (w : world) (a : A) :
  outcome (m w) = Normal a ->
  bind m k w = after (events (m w)) (k a (final (m w))).
Proof. unfold bind. destruct (m w) as [o w' t]. simpl. intros ->. reflexivity. Qed.

Lemma bind_raise {A B} (m : M A) (k : A -> M B) (w : world) (e : exn) :
  outcome (m w) = Raise e ->
  bind m k w = mkRun (Raise e) (final (m w)) (events (m w)).
Proof. unfold bind. destruct (m w) as [o w' t]. simpl. intros ->. reflexivity. Qed.

(** A bare [except] lets no exception of the body through: the handler
    runs where the body stopped. *)
Lemma try_except_raise {A} (body : M A) (hd : exn -> M A) (w : world)
    (e : exn) :
  outcome (body w) = Raise e ->
  try_except body hd w = after (events (body w)) (hd e (final (body w))).
Proof.
  unfold try_except. destruct (body w) as [o w' t]. simpl. intros ->.
  reflexivity.
Qed.

Lemma try_except_normal {A} (body : M A) (hd : exn -> M A) (w : world)
    (a : A) :
  outcome (body w) = Normal a -> try_except body hd w = body w.
Proof.
  unfold try_except. destruct (body w) as [o w' t]. simpl. intros ->.
  reflexivity.
Qed.

End RunFacts.

(** ** Export dispatch *)

Lemma selected_Supported (entity : Entity) (fmt : str) (k : constructor) :
  selected entity fmt = Some k <-> Supported entity fmt k.
Proof.
  split.
  - destruct entity as [c|b]; unfold selected;
      repeat match goal with
      | |- context [str_eqb ?a ?b] =>
          destruct (str_eqb a b) eqn:E;
          [apply str_eqb_eq in E; subst | clear E]
      end; intros [= <-]; constructor.
  - intros []; reflexivity.
Qed.

(** C1.  Once the export manager is obtained, [export_entity] calls
    exactly one export-options constructor when the entity and the format
    tag are a supported combination (STEP, IGES, SAT or STL for a
    component, STL for a body) and asks the manager to execute the options
    that constructor returned; for every other combination it displays a
    message box and returns as the message box does, and the manager's
    execute is not called. *)
Theorem export_entity_dispatch {RT : Runtime} {H : Host}
    (w : world) (entity : Entity) (folder fmt : str)
    (design mgr : handle) (h1 h2 : host_state) :
  host_respond ActiveProduct (host w) = (Normal design, h1) ->
  host_respond (GetExportManager design) h1 = (Normal mgr, h2) ->
  let r := export_entity entity folder fmt w in
  match selected entity fmt with
  | Some k =>
      exists (c : call handle) (r1 : result handle) (rest : list event),
        events r
        = [Called ActiveProduct (Normal design);
           Called (GetExportManager design) (Normal mgr);
           Called c r1] ++ rest
        /\ constructor_of (Called c r1) = Some k
        /\ pick constructor_of (events r) = [k]
        /\ no_event is_messageBox (events r)
        /\ match r1 with
           | Normal options =>
               exists r2, rest = [Called (Execute mgr options) r2]
           | Raise e => rest = [] /\ outcome r = Raise e
           end
  | None =>
      exists text answer,
        events r
        = [Called ActiveProduct (Normal design);
           Called (GetExportManager design) (Normal mgr);
           MessageBox text answer]
        /\ outcome r = answer
        /\ no_event is_execute (events r)
        /\ pick constructor_of (events r) = []
  end.
Proof.
  intros A1 A2 r. subst r. unfold export_entity, no_event.
  run_script. rewrite A1. run_script. rewrite A2. run_script.
  destruct entity as [comp|body]; unfold selected;
    repeat match goal with
    | |- context [str_eqb fmt ?b] =>
        let E := fresh "E" in
        destruct (str_eqb fmt b) eqn:E;
        [apply str_eqb_eq in E; subst fmt; compare_literals | ]
    end;
    run_script; answer;
    try (eexists _, _; repeat split; reflexivity);
    try (eexists _, (Raise _), []; repeat split; reflexivity);
    answer;
    eexists _, (Normal _), _; repeat split; eexists; reflexivity.
Qed.

(** ** File paths *)

Lemma get_file_extension_table (fmt : str) :
  extension_for fmt (get_file_extension fmt).
Proof.
  unfold extension_for, get_file_extension, dict_get.
  destruct (str_eqb (lit "STEP") fmt) eqn:E1;
    [apply str_eqb_eq in E1; auto|].
  destruct (str_eqb (lit "STL") fmt) eqn:E2;
    [apply str_eqb_eq in E2; auto|].
  destruct (str_eqb (lit "IGES") fmt) eqn:E3;
    [apply str_eqb_eq in E3; auto 6|].
  destruct (str_eqb (lit "SAT") fmt) eqn:E4;
    [apply str_eqb_eq in E4; auto 7|].
  apply str_eqb_neq in E1, E2, E3, E4.
  do 4 right. split; [|reflexivity].
  simpl. intuition congruence.
Qed.

(** C8.  Once the export manager is obtained, a supported export hands
    one file path to the export-options constructor it calls: the folder
    joined with the sanitized name of the entity, a dot and the extension
    of the format tag, which is step for STEP, stl for STL, igs for IGES,
    sat for SAT and stp for any other tag.  No other path is handed over,
    and none at all for an unsupported combination. *)
Theorem export_entity_filepath {RT : Runtime} {H : Host}
    (w : world) (entity : Entity) (folder fmt : str)
    (design mgr : handle) (h1 h2 : host_state) :
  host_respond ActiveProduct (host w) = (Normal design, h1) ->
  host_respond (GetExportManager design) h1 = (Normal mgr, h2) ->
  let r := export_entity entity folder fmt w in
  exists ext,
    extension_for fmt ext
    /\ match selected entity fmt with
       | Some k =>
           exists (c : call handle) (r1 : result handle)
                  (rest : list event),
             events r
             = [Called ActiveProduct (Normal design);
                Called (GetExportManager design) (Normal mgr);
                Called c r1] ++ rest
             /\ constructor_of (Called c r1) = Some k
             /\ filepath_of (Called c r1)
                = Some
                    (path_join folder
                       (sanitize_filename (entity_name entity) ++ lit "."
                          ++ ext))
             /\ pick filepath_of (events r)
                = [path_join folder
                     (sanitize_filename (entity_name entity) ++ lit "."
                        ++ ext)]
       | None => pick filepath_of (events r) = []
       end.
Proof.
  intros A1 A2 r. subst r.
  exists (get_file_extension fmt). split; [apply get_file_extension_table|].
  unfold export_entity. run_script. rewrite A1. run_script.
  rewrite A2. run_script.
  destruct entity as [comp|body]; unfold selected;
    repeat match goal with
    | |- context [str_eqb fmt ?b] =>
        let E := fresh "E" in
        destruct (str_eqb fmt b) eqn:E;
        [apply str_eqb_eq in E; subst fmt; compare_literals | ]
    end;
    run_script; answer;
    try reflexivity;
    try (eexists _, (Raise _), []; repeat split; reflexivity);
    answer;
    eexists _, (Normal _), _; repeat split; reflexivity.
Qed.

(** ** The callbacks and the exceptions of their bodies *)

Section FailureFacts.
Context {RT : Runtime} {H : Host}.

Lemma stops_ret {A} (a : A) : stops_at_failure (ret a).
Proof. intros w. reflexivity. Qed.

Lemma stops_handlers_append (h : handler) :
  stops_at_failure (handlers_append h).
Proof. intros w. reflexivity. Qed.

Lemma stops_host_call {R} (c : call R) : stops_at_failure (host_call c).
Proof.
  intros w. unfold stopped_at_failure, host_call.
  destruct (host_respond c (host w)) as [[v|e] h']; cbn [outcome events].
  - reflexivity.
  - exists [], (Called c (Raise e)). auto.
Qed.

Lemma stops_messageBox (text : str) : stops_at_failure (messageBox text).
Proof.
  intros w. unfold stopped_at_failure, messageBox.
  destruct (host_display text (host w)) as [[v|e] h']; cbn [outcome events].
  - reflexivity.
  - exists [], (MessageBox text (Raise e)). auto.
Qed.

Lemma stops_bind {A B} (m : M A) (k : A -> M B) :
  stops_at_failure m -> (forall a, stops_at_failure (k a)) ->
  stops_at_failure (bind m k).
Proof.
  intros Sm Sk w. specialize (Sm w). unfold stopped_at_failure, bind in *.
  destruct (m w) as [[a|e] w' t]; cbn [outcome events] in *; [|exact Sm].
  specialize (Sk a w'). unfold stopped_at_failure in Sk.
  rewrite after_outcome, after_events.
  destruct (outcome (k a w')) as [b|e].
  - rewrite forallb_app, Sm, Sk. reflexivity.
  - destruct Sk as (before & failed & E & B' & R).
    exists (t ++ before), failed. rewrite E, app_assoc, forallb_app, Sm, B'.
    auto.
Qed.

Lemma stops_for_each {A} (body : A -> M unit) (l : list A) :
  (forall x, stops_at_failure (body x)) -> stops_at_failure (for_each body l).
Proof.
  intros Sb. induction l as [|x l IH]; simpl.
  - apply stops_ret.
  - apply stops_bind; [apply Sb | intros _; exact IH].
Qed.

Lemma stops_for_enumerate {A} (body : nat -> A -> M unit) (l : list A) :
  (forall i x, stops_at_failure (body i x)) ->
  forall i, stops_at_failure (for_enumerate body l i).
Proof.
  intros Sb. induction l as [|x l IH]; intros i; simpl.
  - apply stops_ret.
  - apply stops_bind; [apply Sb | intros _; apply IH].
Qed.

Lemma export_entity_stops (entity : Entity) (fd fmt : str) :
  stops_at_failure (export_entity entity fd fmt).
Proof.
  unfold export_entity.
  repeat first
    [ apply stops_ret
    | apply stops_host_call
    | apply stops_messageBox
    | apply stops_bind
    | match goal with
      | |- forall _, _ => intro
      | |- stops_at_failure (if ?b then _ else _) => destruct b
      | |- stops_at_failure (match ?x with _ => _ end) => destruct x
      end ].
Qed.

Lemma created_body_stops (args : handle) :
  stops_at_failure (CommandCreatedHandler.body args).
Proof.
  unfold CommandCreatedHandler.body.
  repeat first
    [ apply stops_ret
    | apply stops_host_call
    | apply stops_handlers_append
    | apply stops_for_each
    | apply stops_bind
    | match goal with |- forall _, _ => intro end ].
Qed.

Lemma input_changed_body_stops (args : handle) :
  stops_at_failure (InputChangedHandler.body args).
Proof.
  unfold InputChangedHandler.body.
  repeat first
    [ apply stops_host_call
    | apply stops_bind
    | match goal with |- forall _, _ => intro end ].
Qed.

Lemma execute_body_stops (args : handle) :
  stops_at_failure (CommandExecuteHandler.body args).
Proof.
  unfold CommandExecuteHandler.body.
  repeat (apply stops_bind; [apply stops_host_call | intros ?]).
  match goal with
  | |- stops_at_failure (if ?b then _ else _) => destruct b
  end; [apply stops_ret|].
  repeat (apply stops_bind; [apply stops_host_call | intros ?]).
  apply stops_bind.
  - apply stops_for_enumerate. intros i x.
    unfold CommandExecuteHandler.export_step.
    apply stops_bind; [apply export_entity_stops|].
    intros _. apply stops_host_call.
  - intros _. apply stops_bind; [apply stops_host_call|].
    intros _. apply stops_messageBox.
Qed.

(** A bare [except] around a body that stops at its first failure. *)
Lemma try_except_catches (prefix : str) (body : M unit) (w : world) :
  stops_at_failure body ->
  catches prefix (body w)
    (try_except body
       (fun e => messageBox (prefix ++ [10%N] ++ format_exc e)) w).
Proof.
  intros S. specialize (S w). unfold catches, stopped_at_failure in *.
  unfold try_except, messageBox.
  destruct (body w) as [[[]|e] w' t]; cbn [outcome events] in *.
  - split; [reflexivity | exact S].
  - destruct S as (before & failed & E & B & R).
    destruct (host_display _ (host w')) as [answer h'].
    cbn [after outcome events]. exists before, failed, answer.
    rewrite E, <- app_assoc. auto.
Qed.

End FailureFacts.

(** C5.  Each of the three callbacks catches every exception of its body:
    when a call of the body raises, the callback stops there and calls
    the message box with 'Failed in' its name and the stack trace of that
    exception, and does nothing more; it returns normally when the message
    box returns, and ends with the exception of the message box when that
    call raises.  When no call of the body raises, no message box of
    failure is shown. *)
Theorem callbacks_catch_body_exceptions {RT : Runtime} {H : Host}
    (args : handle) (w : world) :
  catches (lit "Failed in CommandCreatedHandler:")
    (CommandCreatedHandler.body args w)
    (CommandCreatedHandler.notify args w)
  /\ catches (lit "Failed in InputChangedHandler:")
       (InputChangedHandler.body args w)
       (InputChangedHandler.notify args w)
  /\ catches (lit "Failed in CommandExecuteHandler:")
       (CommandExecuteHandler.body args w)
       (CommandExecuteHandler.notify args w).
Proof.
  split; [|split].
  - apply try_except_catches, created_body_stops.
  - apply try_except_catches, input_changed_body_stops.
  - apply try_except_catches, execute_body_stops.
Qed.

(** ** The counter of files to export *)

(** An input-changed event in which every host call returns sets the
    text of the 'fileCount' box to the decimal string of the length of
    [get_visible_entities] at the root and the two checkbox values the
    host gave in that event. *)
Lemma file_count_shows_length {RT : Runtime} {H : Host}
    (args : handle) (w : world) :
  let r := InputChangedHandler.notify args w in
  forallb returned (events r) = true ->
  exists cmdInputs design root cb1 export_components cb2 export_bodies
         count_box,
    events r
    = [Called (GetInputs args) (Normal cmdInputs);
       Called ActiveProduct (Normal design);
       Called (GetRootComponent design) (Normal root);
       Called (ItemById cmdInputs (lit "exportComponents")) (Normal cb1);
       Called (GetValue cb1) (Normal export_components);
       Called (ItemById cmdInputs (lit "exportBodies")) (Normal cb2);
       Called (GetValue cb2) (Normal export_bodies);
       Called (ItemById cmdInputs (lit "fileCount")) (Normal count_box);
       Called
         (SetText count_box
            (py_str
               (length
                  (get_visible_entities root export_components
                     export_bodies))))
         (Normal tt)]
    /\ outcome r = Normal tt.
Proof.
  unfold InputChangedHandler.notify, InputChangedHandler.body, try_except.
  run_script.
  do 9 (answer; [|answer; observe; intros D; discriminate D]).
  intros _. destruct v7. repeat eexists.
Qed.

(** ** The phases of command execution *)

Section PhaseFacts.
Context {RT : Runtime} {H : Host}.

Lemma after_after {A} (t1 t2 : list event) (r : run A) :
  after t1 (after t2 r) = after (t1 ++ t2) r.
Proof. destruct r. simpl. rewrite app_assoc. reflexivity. Qed.

Lemma after_nil {A} (r : run A) : after [] r = r.
Proof. destruct r. reflexivity. Qed.

Lemma body_phases (args : handle) (w : world) :
  CommandExecuteHandler.body args w = phases args w.
Proof.
  unfold CommandExecuteHandler.body, phases, prepare, finish, export_loop.
  run_script.
  do 13 (answer; [|reflexivity]).
  match goal with
  | |- context [CommandExecuteHandler.falsy ?f] =>
      destruct (CommandExecuteHandler.falsy f)
  end; run_script; [reflexivity|].
  do 3 (answer; [|reflexivity]).
  rewrite !after_after. cbn [app]. reflexivity.
Qed.


(** *** Runs of [bind] *)

Lemma bind_outcome_normal {A B} (m : M A) (k : A -> M B) (w : world)
    (b : B) :
  outcome (bind m k w) = Normal b ->
  exists a, outcome (m w) = Normal a
            /\ outcome (k a (final (m w))) = Normal b.
Proof.
  unfold bind. destruct (m w) as [[a|e] w' t]; simpl.
  - rewrite after_outcome. eauto.
  - discriminate.
Qed.

Lemma bind_assoc {A B C} (m : M A) (f : A -> M B) (g : B -> M C)
    (w : world) :
  bind (bind m f) g w = bind m (fun a => bind (f a) g) w.
Proof.
  unfold bind. destruct (m w) as [[a|e] w' t]; simpl; [|reflexivity].
  destruct (f a w') as [[b|e] w'' t']; simpl; [|reflexivity].
  rewrite after_after. reflexivity.
Qed.

Lemma bind_ext {A B} (m : M A) (f g : A -> M B) (w : world) :
  (forall a w', f a w' = g a w') -> bind m f w = bind m g w.
Proof.
  intros E. unfold bind. destruct (m w) as [[a|e] w' t]; simpl;
    rewrite ?E; reflexivity.
Qed.

(** *** The loop, iteration by iteration *)

Lemma for_enumerate_app {A} (body : nat -> A -> M unit) (a b : list A)
    (i : nat) (w : world) :
  for_enumerate body (a ++ b) i w
  = bind (for_enumerate body a i)
      (fun _ => for_enumerate body b (i + length a)) w.
Proof.
  revert i w. induction a as [|x a IH]; intros i w.
  - simpl. unfold bind, ret. rewrite after_nil, Nat.add_0_r. reflexivity.
  - cbn [for_enumerate app length]. rewrite bind_assoc.
    apply bind_ext. intros _ w'. rewrite IH.
    replace (S i + length a) with (i + S (length a)) by lia.
    reflexivity.
Qed.

Lemma export_entity_loop_events (entity : Entity) (fd fmt : str)
    (w : world) :
  forallb loop_event (events (export_entity entity fd fmt w)) = true.
Proof.
  unfold export_entity. run_script.
  answer; [|reflexivity]. answer; [|reflexivity].
  destruct entity as [comp|body];
    repeat match goal with
    | |- context [str_eqb fmt ?b] => destruct (str_eqb fmt b); run_script
    end;
    answer; try reflexivity; answer; reflexivity.
Qed.

Lemma export_entity_progress_value (entity : Entity) (fd fmt : str)
    (w : world) (shown : option nat) :
  progress_value shown (events (export_entity entity fd fmt w)) = shown.
Proof.
  unfold export_entity. run_script.
  answer; [|reflexivity]. answer; [|reflexivity].
  destruct entity as [comp|body];
    repeat match goal with
    | |- context [str_eqb fmt ?b] => destruct (str_eqb fmt b); run_script
    end;
    answer; try reflexivity; answer; reflexivity.
Qed.

Lemma progress_value_app (shown : option nat) (a b : list event) :
  progress_value shown (a ++ b)
  = progress_value (progress_value shown a) b.
Proof.
  revert shown. induction a as [|ev a IH]; intros shown; [reflexivity|].
  destruct ev as [R c r|text]; [|apply IH].
  destruct c; try apply IH. destruct r; apply IH.
Qed.

(** One iteration that completes: the export of the item, then the
    assignment of [i + 1] to the progress value. *)
Lemma export_step_normal (p : handle) (fd fmt : str) (i : nat)
    (item : Entity) (w : world) :
  outcome (CommandExecuteHandler.export_step p fd fmt i item w)
  = Normal tt ->
  outcome (export_entity item fd fmt w) = Normal tt
  /\ events (CommandExecuteHandler.export_step p fd fmt i item w)
     = events (export_entity item fd fmt w)
       ++ [Called (SetProgressValue p (i + 1)) (Normal tt)].
Proof.
  unfold CommandExecuteHandler.export_step, bind.
  destruct (export_entity item fd fmt w) as [[[]|e] w' t]; simpl;
    [|discriminate].
  unfold host_call.
  destruct (host_respond (SetProgressValue p (i + 1)) (host w'))
    as [[[]|e] h']; simpl; [|discriminate].
  auto.
Qed.

Lemma export_step_raise (p : handle) (fd fmt : str) (i : nat)
    (item : Entity) (w : world) (e : exn) :
  outcome (export_entity item fd fmt w) = Raise e ->
  CommandExecuteHandler.export_step p fd fmt i item w
  = export_entity item fd fmt w.
Proof.
  unfold CommandExecuteHandler.export_step, bind.
  destruct (export_entity item fd fmt w) as [[[]|e'] w' t]; simpl;
    [discriminate|]. intros [= <-]. reflexivity.
Qed.

(** The invariant of the loop: when the iterations for [items] have
    completed from index [i], the progress value is the number of items
    processed so far. *)
Lemma export_loop_progress (s : session) (items : list Entity) (i : nat)
    (w : world) (shown : option nat) :
  outcome (export_loop s items i w) = Normal tt ->
  progress_value shown (events (export_loop s items i w))
  = match items with
    | [] => shown
    | _ :: _ => Some (i + length items)
    end.
Proof.
  unfold export_loop.
  revert i w shown. induction items as [|item items IH];
    intros i w shown; [reflexivity|].
  cbn [for_enumerate]. intros N.
  apply bind_outcome_normal in N as ([] & N1 & N2).
  rewrite (bind_normal _ _ _ N1), after_events, progress_value_app.
  rewrite (IH _ _ _ N2).
  destruct (export_step_normal _ _ _ _ _ _ N1) as [_ ->].
  rewrite progress_value_app, export_entity_progress_value.
  destruct items; simpl; f_equal; lia.
Qed.

Lemma bind_events {A B} (m : M A) (k : A -> M B) (w : world) :
  events (bind m k w)
  = events (m w)
    ++ match outcome (m w) with
       | Normal a => events (k a (final (m w)))
       | Raise _ => []
       end.
Proof.
  unfold bind. destruct (m w) as [[a|e] w' t]; simpl.
  - apply after_events.
  - rewrite app_nil_r. reflexivity.
Qed.

Lemma export_step_loop_events (p : handle) (fd fmt : str) (i : nat)
    (item : Entity) (w : world) :
  forallb loop_event
    (events (CommandExecuteHandler.export_step p fd fmt i item w)) = true.
Proof.
  unfold CommandExecuteHandler.export_step.
  rewrite bind_events, forallb_app, export_entity_loop_events.
  destruct (outcome (export_entity item fd fmt w)); [|reflexivity].
  unfold host_call. destruct (host_respond _ _). reflexivity.
Qed.

Lemma export_loop_events (s : session) (items : list Entity) (i : nat)
    (w : world) :
  forallb loop_event (events (export_loop s items i w)) = true.
Proof.
  unfold export_loop.
  revert i w. induction items as [|item items IH]; intros i w;
    [reflexivity|].
  cbn [for_enumerate].
  rewrite bind_events, forallb_app, export_step_loop_events.
  destruct (outcome _); [apply IH | reflexivity].
Qed.

End PhaseFacts.

Section ExecuteFacts.
Context {RT : Runtime} {H : Host}.

Lemma try_except_events {A} (body : M A) (hd : exn -> M A) (w : world) :
  events (try_except body hd w)
  = events (body w)
    ++ match outcome (body w) with
       | Normal _ => []
       | Raise e => events (hd e (final (body w)))
       end.
Proof.
  unfold try_except. destruct (body w) as [[a|e] w' t]; simpl.
  - rewrite app_nil_r. reflexivity.
  - apply after_events.
Qed.

(** The events of the callback: those of the three phases, and the
    message box of the handler when one of them raised. *)
Lemma notify_events (args : handle) (w : world) :
  events (CommandExecuteHandler.notify args w)
  = events (phases args w)
    ++ match outcome (phases args w) with
       | Normal _ => []
       | Raise e =>
           events
             (messageBox (CommandExecuteHandler.failure_text e)
                (final (phases args w)))
       end.
Proof.
  unfold CommandExecuteHandler.notify.
  rewrite try_except_events, body_phases. reflexivity.
Qed.

Lemma messageBox_events (text : str) (w : world) :
  exists answer,
    events (messageBox text w) = [MessageBox text answer]
    /\ outcome (messageBox text w) = answer
    /\ handlers (final (messageBox text w)) = handlers w.
Proof.
  unfold messageBox. destruct (host_display text (host w)) as [answer h'].
  exists answer. auto.
Qed.

Lemma phases_prepared (args : handle) (w : world) (s : session) :
  outcome (prepare args w) = Normal (Some s) ->
  phases args w
  = after (events (prepare args w))
      (bind (export_loop s (visible_items s) 0) (fun _ => finish s)
         (final (prepare args w))).
Proof. intros P. unfold phases. rewrite (bind_normal _ _ _ P). reflexivity. Qed.

Lemma prepare_progress_value (args : handle) (w : world)
    (shown : option nat) :
  progress_value shown (events (prepare args w)) = shown.
Proof.
  unfold prepare. run_script.
  do 13 (answer; [|reflexivity]).
  match goal with
  | |- context [CommandExecuteHandler.falsy ?f] =>
      destruct (CommandExecuteHandler.falsy f)
  end; run_script; [reflexivity|].
  do 3 (answer; [|reflexivity]). reflexivity.
Qed.

Lemma prepare_no_execute (args : handle) (w : world) :
  filter is_execute (events (prepare args w)) = [].
Proof.
  unfold prepare. run_script.
  do 13 (answer; [|reflexivity]).
  match goal with
  | |- context [CommandExecuteHandler.falsy ?f] =>
      destruct (CommandExecuteHandler.falsy f)
  end; run_script; [reflexivity|].
  do 3 (answer; [|reflexivity]). reflexivity.
Qed.

(** What the loop works on: the visible entities at the root and the
    checkbox values the host gave, the folder of the dialog and the name
    of the selected format. *)
Lemma prepare_session (args : handle) (w : world) (s : session) :
  outcome (prepare args w) = Normal (Some s) ->
  exists design root firingEvent sender cmdInputs cb1 export_components cb2
         export_bodies dd selectedItem,
    firstn 13 (events (prepare args w))
    = [Called ActiveProduct (Normal design);
       Called (GetRootComponent design) (Normal root);
       Called (GetFiringEvent args) (Normal firingEvent);
       Called (GetSender firingEvent) (Normal sender);
       Called (GetCommandInputs sender) (Normal cmdInputs);
       Called (ItemById cmdInputs (lit "exportComponents")) (Normal cb1);
       Called (GetValue cb1) (Normal export_components);
       Called (ItemById cmdInputs (lit "exportBodies")) (Normal cb2);
       Called (GetValue cb2) (Normal export_bodies);
       Called (ItemById cmdInputs (lit "fileFormat")) (Normal dd);
       Called (GetSelectedItem dd) (Normal selectedItem);
       Called (GetName selectedItem) (Normal (export_format s));
       Called (SelectFolderDialog (lit "Select folder for exported files"))
         (Normal (folder s))]
    /\ visible_items s
       = get_visible_entities root export_components export_bodies
    /\ folder s <> [].
Proof.
  unfold prepare. run_script.
  do 13 (answer; [|discriminate]).
  match goal with
  | |- context [CommandExecuteHandler.falsy ?f] => destruct f as [|c t]
  end; cbn [CommandExecuteHandler.falsy]; run_script; [discriminate|].
  do 3 (answer; [|discriminate]).
  intros [= <-]. cbn [firstn visible_items folder export_format].
  repeat eexists. discriminate.
Qed.

(** The first [length done] iterations, when they complete, are a
    prefix of the run of the loop. *)
Lemma export_loop_prefix (s : session) (done rest : list Entity)
    (w : world) :
  outcome (export_loop s done 0 w) = Normal tt ->
  export_loop s (done ++ rest) 0 w
  = after (events (export_loop s done 0 w))
      (export_loop s rest (length done) (final (export_loop s done 0 w))).
Proof.
  intros N. unfold export_loop in *.
  rewrite for_enumerate_app, (bind_normal _ _ _ N). reflexivity.
Qed.

End ExecuteFacts.

(** C7.  During command execution the items are exported one after the
    other in the order of the list: when the iterations up to index [i]
    complete, the events of the callback are those before the loop, then
    those of the items before [i], then those of [export_entity] on item
    [i], then the assignment of [i + 1] to the progress value, then the
    rest; the progress dialog shows [i] while item [i] is exported and
    [i + 1] once its iteration is over. *)
Theorem export_loop_invariant {RT : Runtime} {H : Host}
    (args : handle) (w : world) (s : session)
    (done : list Entity) (item : Entity) (rest : list Entity) :
  outcome (prepare args w) = Normal (Some s) ->
  visible_items s = done ++ item :: rest ->
  let w0 := final (prepare args w) in
  outcome (export_loop s (done ++ [item]) 0 w0) = Normal tt ->
  let i := length done in
  let w1 := final (export_loop s done 0 w0) in
  let before := events (prepare args w) ++ events (export_loop s done 0 w0) in
  let exported :=
    events (export_entity item (folder s) (export_format s) w1) in
  let assigned := Called (SetProgressValue (progress s) (i + 1)) (Normal tt) in
  exists later,
    events (CommandExecuteHandler.notify args w)
    = before ++ exported ++ [assigned] ++ later
    /\ outcome (export_entity item (folder s) (export_format s) w1)
       = Normal tt
    /\ progress_value None (before ++ exported)
       = match done with [] => None | _ :: _ => Some i end
    /\ progress_value None (before ++ exported ++ [assigned]) = Some (i + 1).
Proof.
  intros P V w0 N i w1 before exported assigned.
  (* the iterations before [i], then iteration [i] *)
  pose proof N as N'. unfold export_loop in N'.
  rewrite for_enumerate_app in N'.
  apply bind_outcome_normal in N' as ([] & Nd & Ni).
  fold (export_loop s done 0 w0) in Nd.
  cbn [for_enumerate] in Ni.
  apply bind_outcome_normal in Ni as ([] & Ns & _).
  change (0 + length done) with i in Ns.
  change (final (for_enumerate _ done 0 w0)) with w1 in Ns.
  destruct (export_step_normal _ _ _ _ _ _ Ns) as [Ne Es].
  (* the events of the callback *)
  assert (L : exists later,
             events (export_loop s (visible_items s) 0 w0)
             = events (export_loop s done 0 w0)
               ++ exported ++ [assigned] ++ later).
  { rewrite V, (export_loop_prefix _ _ _ _ Nd), after_events.
    unfold export_loop at 2. cbn [for_enumerate].
    rewrite bind_events. fold i w1. rewrite Es, Ns.
    eexists. rewrite <- !app_assoc. reflexivity. }
  destruct L as (later & L).
  eexists. split; [|split; [exact Ne|split]].
  - rewrite notify_events, (phases_prepared _ _ P), after_events.
    rewrite bind_events. fold w0. rewrite L.
    unfold before. rewrite <- !app_assoc. reflexivity.
  - unfold before.
    rewrite !progress_value_app, prepare_progress_value.
    rewrite (export_loop_progress _ _ _ _ _ Nd).
    unfold exported. rewrite export_entity_progress_value.
    destruct done; reflexivity.
  - rewrite !app_assoc, progress_value_app. reflexivity.
Qed.

(** C2.  If [export_entity] raises on the item at index [i] of the visible
    items, after the items before it were exported, the callback ends
    there: its events are those up to the failed call and then the one
    message box of the handler, and it ends as that message box does.
    Nothing is asked of the host for the items after [i], and nothing
    about the exports before [i]. *)
Theorem failed_export_aborts_batch {RT : Runtime} {H : Host}
    (args : handle) (w : world) (s : session)
    (done : list Entity) (item : Entity) (rest : list Entity) (e : exn) :
  outcome (prepare args w) = Normal (Some s) ->
  visible_items s = done ++ item :: rest ->
  let w0 := final (prepare args w) in
  outcome (export_loop s done 0 w0) = Normal tt ->
  let w1 := final (export_loop s done 0 w0) in
  let failed := export_entity item (folder s) (export_format s) w1 in
  outcome failed = Raise e ->
  let r := CommandExecuteHandler.notify args w in
  exists answer,
    events r
    = events (prepare args w) ++ events (export_loop s done 0 w0)
        ++ events failed
        ++ [MessageBox (CommandExecuteHandler.failure_text e) answer]
    /\ outcome r = answer
    /\ filter is_execute (events r)
       = filter is_execute
           (events (export_loop s done 0 w0) ++ events failed).
Proof.
  intros P V w0 Nd w1 failed F r.
  assert (L : export_loop s (visible_items s) 0 w0
              = mkRun (Raise e) (final failed)
                  (events (export_loop s done 0 w0) ++ events failed)).
  { rewrite V, (export_loop_prefix _ _ _ _ Nd).
    unfold export_loop at 2. cbn [for_enumerate].
    fold w1. rewrite bind_raise with (e := e);
      rewrite (export_step_raise _ _ _ _ _ _ F); [reflexivity | exact F]. }
  assert (B : phases args w
              = mkRun (Raise e) (final failed)
                  (events (prepare args w)
                   ++ events (export_loop s done 0 w0) ++ events failed)).
  { rewrite (phases_prepared _ _ P). fold w0.
    rewrite bind_raise with (e := e); rewrite L; reflexivity. }
  destruct (messageBox_events (CommandExecuteHandler.failure_text e)
              (final failed)) as (answer & Eb & Ob & _).
  exists answer.
  assert (E : events r
              = events (prepare args w) ++ events (export_loop s done 0 w0)
                ++ events failed
                ++ [MessageBox (CommandExecuteHandler.failure_text e)
                      answer]).
  { unfold r. rewrite notify_events, B. cbn [events outcome final].
    rewrite Eb, <- !app_assoc. reflexivity. }
  split; [exact E|split].
  - unfold r, CommandExecuteHandler.notify, try_except.
    rewrite body_phases, B. cbv beta iota. rewrite after_outcome.
    exact Ob.
  - rewrite E, !filter_app. cbn [filter is_execute].
    rewrite app_nil_r.
    rewrite prepare_no_execute. reflexivity.
Qed.

Section FolderFacts.
Context {RT : Runtime} {H : Host}.

Lemma existsb_excluded (p q : event -> bool) (tr : list event) :
  (forall ev, p ev = true -> q ev = false) ->
  forallb p tr = true -> existsb q tr = false.
Proof.
  intros D. induction tr as [|ev tr IH]; simpl; [reflexivity|].
  intros A. apply andb_true_iff in A as [A1 A2].
  rewrite (D _ A1), (IH A2). reflexivity.
Qed.

Lemma loop_event_not_folder (ev : event) :
  loop_event ev = true -> no_folder_chosen ev = false.
Proof.
  destruct ev as [R c r|text r]; [|reflexivity].
  destruct c; try reflexivity; discriminate.
Qed.

(** How the phase before the loop can end. *)
Lemma prepare_cases (args : handle) (w : world) :
  match outcome (prepare args w) with
  | Normal None =>
      (exists before title,
          events (prepare args w)
          = before ++ [Called (SelectFolderDialog title) (Normal [])])
      /\ existsb is_execute (events (prepare args w)) = false
      /\ pick constructor_of (events (prepare args w)) = []
      /\ existsb is_progress_dialog (events (prepare args w)) = false
      /\ existsb is_messageBox (events (prepare args w)) = false
  | _ => existsb no_folder_chosen (events (prepare args w)) = false
  end.
Proof.
  unfold prepare. run_script.
  do 13 (answer; [|reflexivity]).
  match goal with
  | |- context [CommandExecuteHandler.falsy ?f] => destruct f as [|c t]
  end; cbn [CommandExecuteHandler.falsy]; run_script.
  - split; [|repeat split].
    eexists [_; _; _; _; _; _; _; _; _; _; _; _], _. reflexivity.
  - do 3 (answer; [|reflexivity]). reflexivity.
Qed.

Lemma after_loop_no_folder (s : session) (items : list Entity)
    (w : world) :
  existsb no_folder_chosen
    (events (bind (export_loop s items 0) (fun _ => finish s) w)) = false.
Proof.
  rewrite bind_events, existsb_app.
  assert (existsb no_folder_chosen (events (export_loop s items 0 w))
          = false) as ->
    by (apply existsb_excluded with (p := loop_event);
        [exact loop_event_not_folder | apply export_loop_events]).
  destruct (outcome _); [|reflexivity].
  unfold finish. run_script. answer; [answer|]; reflexivity.
Qed.

End FolderFacts.

(** C10.  If the folder dialog of the execute callback comes back without
    a folder, the callback returns at once: the dialog is the last thing it
    asked of the host, nothing is exported, no progress dialog is created or
    shown, and no message box is displayed. *)
Theorem no_folder_returns_at_once {RT : Runtime} {H : Host}
    (args : handle) (w : world) :
  let r := CommandExecuteHandler.notify args w in
  existsb no_folder_chosen (events r) = true ->
  outcome r = Normal tt
  /\ (exists before title,
         events r
         = before ++ [Called (SelectFolderDialog title) (Normal [])])
  /\ no_event is_execute (events r)
  /\ pick constructor_of (events r) = []
  /\ no_event is_progress_dialog (events r)
  /\ no_event is_messageBox (events r).
Proof.
  intros r. subst r. unfold no_event.
  pose proof (prepare_cases args w) as C.
  destruct (outcome (prepare args w)) as [[s|]|e] eqn:P.
  - (* a folder was chosen *)
    rewrite notify_events, (phases_prepared _ _ P), after_events.
    rewrite !existsb_app, C, after_loop_no_folder.
    destruct (outcome (after _ _));
      try match goal with
      | |- context [events (messageBox ?t ?w0)] =>
          destruct (messageBox_events t w0) as (? & -> & _)
      end;
      cbn [existsb no_folder_chosen orb]; discriminate.
  - (* no folder *)
    intros _.
    assert (E : CommandExecuteHandler.notify args w
                = mkRun (Normal tt) (final (prepare args w))
                    (events (prepare args w))).
    { unfold CommandExecuteHandler.notify, try_except.
      rewrite body_phases. unfold phases.
      rewrite (bind_normal _ _ _ P). unfold ret. cbn [after].
      rewrite app_nil_r. reflexivity. }
    rewrite E. cbn [outcome events]. tauto.
  - (* the phase before the loop raised *)
    assert (E : phases args w
                = mkRun (Raise e) (final (prepare args w))
                    (events (prepare args w))).
    { unfold phases. apply bind_raise, P. }
    rewrite notify_events, E. cbn [outcome events final].
    destruct (messageBox_events (CommandExecuteHandler.failure_text e)
                (final (prepare args w))) as (? & -> & _).
    rewrite existsb_app, C. discriminate.
Qed.

(** * The properties at work on the sample document

    The theorems above, applied to runs of the script on [sample_root]
    with the scripted host. *)

Example sanitize_plate :
  @sanitize_filename ascii_runtime (lit "Plate #1 ") = lit "Plate 1".
Proof. reflexivity. Qed.

Example sanitize_bracket :
  @sanitize_filename ascii_runtime (lit "Bracket/A") = lit "BracketA".
Proof. reflexivity. Qed.

Example visible_sample :
  get_visible_entities sample_root true true
  = [EComponent bracket; EBody plate; EBody lid].
Proof. reflexivity. Qed.

Example export_bracket_path :
  pick filepath_of
    (events
       (@export_entity ascii_runtime scripted_host (EComponent bracket)
          (lit "/out") (lit "IGES") (sample_world None "IGES" "/out")))
  = [lit "/out/BracketA.igs"].
Proof. reflexivity. Qed.

Example body_as_step_is_refused :
  let r :=
    @export_entity ascii_runtime scripted_host (EBody plate) (lit "/out")
      (lit "STEP") (sample_world None "STEP" "/out") in
  events r
  = [Called ActiveProduct (Normal (Handle 10));
     Called (GetExportManager (Handle 10)) (Normal (Handle 11));
     MessageBox (lit "Bodies can only be exported as STL") (Normal tt)]
  /\ outcome r = Normal tt.
Proof. split; reflexivity. Qed.

Example created_handlers :
  let r :=
    @CommandCreatedHandler.notify ascii_runtime scripted_host (Handle 0)
      (sample_world None "STEP" "/out") in
  handlers (final r) = [NewInputChangedHandler; NewCommandExecuteHandler]
  /\ length (events r) = 16
  /\ forallb returned (events r) = true.
Proof. repeat split; reflexivity. Qed.

Example created_failure_is_reported :
  let r :=
    @CommandCreatedHandler.notify ascii_runtime scripted_host (Handle 0)
      (sample_world (Some 2) "STEP" "/out") in
  outcome r = Normal tt
  /\ handlers (final r) = []
  /\ skipn 3 (events r)
     = [MessageBox
          (lit "Failed in CommandCreatedHandler:" ++ [10%N]
             ++ plain_format_exc RuntimeError)
          (Normal tt)].
Proof. repeat split; reflexivity. Qed.

(** With only the bodies checked and STEP selected, the counter shows the
    two visible bodies, and the execute callback hands both of them to
    [export_entity], which refuses each with a message box. *)
Example unsupported_items_are_counted :
  let st := sample_host None false true "STEP" "/out" in
  let changed :=
    @InputChangedHandler.notify ascii_runtime scripted_host (Handle 0)
      (start st) in
  let executed :=
    @CommandExecuteHandler.notify ascii_runtime scripted_host (Handle 0)
      (start st) in
  last (events changed) (MessageBox [] (Normal tt))
  = Called (SetText (Handle 4) (lit "2")) (Normal tt)
  /\ progress_value None (events executed) = Some 2
  /\ filter is_execute (events executed) = []
  /\ pick (fun ev => match ev with MessageBox t _ => Some t | _ => None end)
       (events executed)
     = [lit "Bodies can only be exported as STL";
        lit "Bodies can only be exported as STL";
        lit "Exported 2 files successfully."].
Proof. repeat split; reflexivity. Qed.

Lemma export_entity_dispatch_witness :
  let w := sample_world None "STEP" "/out" in
  let r :=
    @export_entity ascii_runtime scripted_host (EComponent bracket)
      (lit "/out") (lit "STEP") w in
  host_respond ActiveProduct (host w) = (Normal (Handle 10), host w)
  /\ host_respond (GetExportManager (Handle 10)) (host w)
     = (Normal (Handle 11), host w)
  /\ exists (c : call handle) (r1 : result handle) (rest : list event),
       events r
       = [Called ActiveProduct (Normal (Handle 10));
          Called (GetExportManager (Handle 10)) (Normal (Handle 11));
          Called c r1] ++ rest
       /\ constructor_of (Called c r1) = Some STEP
       /\ pick constructor_of (events r) = [STEP]
       /\ no_event is_messageBox (events r)
       /\ match r1 with
          | Normal options =>
              exists r2, rest = [Called (Execute (Handle 11) options) r2]
          | Raise e => rest = [] /\ outcome r = Raise e
          end.
Proof.
  split; [reflexivity|split; [reflexivity|]].
  exact (@export_entity_dispatch ascii_runtime scripted_host
           (sample_world None "STEP" "/out") (EComponent bracket)
           (lit "/out") (lit "STEP") (Handle 10) (Handle 11) _ _
           eq_refl eq_refl).
Defined.

Lemma export_entity_filepath_witness :
  let w := sample_world None "IGES" "/out" in
  let r :=
    @export_entity ascii_runtime scripted_host (EComponent bracket)
      (lit "/out") (lit "IGES") w in
  host_respond ActiveProduct (host w) = (Normal (Handle 10), host w)
  /\ host_respond (GetExportManager (Handle 10)) (host w)
     = (Normal (Handle 11), host w)
  /\ exists ext,
       @extension_for (lit "IGES") ext
       /\ exists (c : call handle) (r1 : result handle) (rest : list event),
            events r
            = [Called ActiveProduct (Normal (Handle 10));
               Called (GetExportManager (Handle 10)) (Normal (Handle 11));
               Called c r1] ++ rest
            /\ constructor_of (Called c r1) = Some IGES
            /\ filepath_of (Called c r1)
               = Some
                   (@path_join ascii_runtime (lit "/out")
                      (@sanitize_filename ascii_runtime (lit "Bracket/A")
                         ++ lit "." ++ ext))
            /\ pick filepath_of (events r)
               = [@path_join ascii_runtime (lit "/out")
                    (@sanitize_filename ascii_runtime (lit "Bracket/A")
                       ++ lit "." ++ ext)].
Proof.
  split; [reflexivity|split; [reflexivity|]].
  exact (@export_entity_filepath ascii_runtime scripted_host
           (sample_world None "IGES" "/out") (EComponent bracket)
           (lit "/out") (lit "IGES") (Handle 10) (Handle 11) _ _
           eq_refl eq_refl).
Defined.

Lemma export_loop_invariant_witness :
  let args := Handle 0 in
  let w := sample_world None "STL" "/out" in
  let s := sample_session in
  let done := [EComponent bracket] in
  let item := EBody plate in
  let rest := [EBody lid] in
  let w0 := final (@prepare scripted_host args w) in
  let w1 := final (@export_loop ascii_runtime scripted_host s done 0 w0) in
  let before :=
    events (@prepare scripted_host args w)
      ++ events (@export_loop ascii_runtime scripted_host s done 0 w0) in
  let exported :=
    events
      (@export_entity ascii_runtime scripted_host item (folder s)
         (export_format s) w1) in
  let assigned := Called (SetProgressValue (progress s) 2) (Normal tt) in
  outcome (@prepare scripted_host args w) = Normal (Some s)
  /\ visible_items s = done ++ item :: rest
  /\ outcome
       (@export_loop ascii_runtime scripted_host s (done ++ [item]) 0 w0)
     = Normal tt
  /\ exists later,
       events
         (@CommandExecuteHandler.notify ascii_runtime scripted_host args w)
       = before ++ exported ++ [assigned] ++ later
       /\ outcome
            (@export_entity ascii_runtime scripted_host item (folder s)
               (export_format s) w1)
          = Normal tt
       /\ progress_value None (before ++ exported) = Some 1
       /\ progress_value None (before ++ exported ++ [assigned]) = Some 2.
Proof.
  split; [reflexivity|split; [reflexivity|split; [reflexivity|]]].
  exact (@export_loop_invariant ascii_runtime scripted_host (Handle 0)
           (sample_world None "STL" "/out") sample_session
           [EComponent bracket] (EBody plate) [EBody lid]
           eq_refl eq_refl eq_refl).
Defined.

Lemma failed_export_aborts_batch_witness :
  let args := Handle 0 in
  let w := sample_world (Some 24) "STL" "/out" in
  let s := sample_session in
  let done := [EComponent bracket] in
  let item := EBody plate in
  let rest := [EBody lid] in
  let w0 := final (@prepare scripted_host args w) in
  let w1 := final (@export_loop ascii_runtime scripted_host s done 0 w0) in
  let failed :=
    @export_entity ascii_runtime scripted_host item (folder s)
      (export_format s) w1 in
  let r := @CommandExecuteHandler.notify ascii_runtime scripted_host args w in
  outcome (@prepare scripted_host args w) = Normal (Some s)
  /\ visible_items s = done ++ item :: rest
  /\ outcome (@export_loop ascii_runtime scripted_host s done 0 w0)
     = Normal tt
  /\ outcome failed = Raise RuntimeError
  /\ exists answer,
       events r
       = events (@prepare scripted_host args w)
           ++ events (@export_loop ascii_runtime scripted_host s done 0 w0)
           ++ events failed
           ++ [MessageBox
                 (@CommandExecuteHandler.failure_text ascii_runtime
                    RuntimeError)
                 answer]
       /\ outcome r = answer
       /\ filter is_execute (events r)
          = filter is_execute
              (events (@export_loop ascii_runtime scripted_host s done 0 w0)
                 ++ events failed).
Proof.
  split; [reflexivity|split; [reflexivity|split; [reflexivity|]]].
  split; [reflexivity|].
  exact (@failed_export_aborts_batch ascii_runtime scripted_host (Handle 0)
           (sample_world (Some 24) "STL" "/out") sample_session
           [EComponent bracket] (EBody plate) [EBody lid] RuntimeError
           eq_refl eq_refl eq_refl eq_refl).
Defined.

Example failed_export_sample :
  let r :=
    @CommandExecuteHandler.notify ascii_runtime scripted_host (Handle 0)
      (sample_world (Some 24) "STL" "/out") in
  pick filepath_of (events r)
  = [lit "/out/BracketA.stl"; lit "/out/Plate 1.stl"]
  /\ length (filter is_execute (events r)) = 2
  /\ progress_value None (events r) = Some 1.
Proof. repeat split; reflexivity. Qed.

Lemma no_folder_returns_at_once_witness :
  let r :=
    @CommandExecuteHandler.notify ascii_runtime scripted_host (Handle 0)
      (sample_world None "STEP" "") in
  existsb no_folder_chosen (events r) = true
  /\ outcome r = Normal tt
  /\ (exists before title,
         events r
         = before ++ [Called (SelectFolderDialog title) (Normal [])])
  /\ no_event is_execute (events r)
  /\ pick constructor_of (events r) = []
  /\ no_event is_progress_dialog (events r)
  /\ no_event is_messageBox (events r).
Proof.
  split; [reflexivity|].
  exact (@no_folder_returns_at_once ascii_runtime scripted_host (Handle 0)
           (sample_world None "STEP" "") eq_refl).
Defined.

(** * Further properties *)

(** ** File names, continued *)

Section SanitizeMore.
Context {RT : Runtime}.

Lemma rstrip_nil_iff (s : str) : rstrip s = [] <-> forallb isspace s = true.
Proof.
  split.
  - intros E. destruct (rstrip_Trimmed s) as (ws & S & A & _).
    rewrite E in S. simpl in S. subst ws. exact A.
  - intros A. symmetry. apply Trimmed_unique.
    exists s. repeat split; auto.
    intros [|x r] y; discriminate.
Qed.

Lemma rstrip_fixed (s : str) :
  (forall r c, s = r ++ [c] -> isspace c = false) -> rstrip s = s.
Proof.
  intros F. symmetry. apply Trimmed_unique.
  exists []. rewrite app_nil_r. repeat split; auto.
Qed.

Lemma filter_allowed_insert (a b : str) (c : char) :
  allowed c = false -> filter allowed (a ++ c :: b) = filter allowed (a ++ b).
Proof. intros E. rewrite !filter_app. simpl. rewrite E. reflexivity. Qed.

End SanitizeMore.

(** X1.  The names [sanitize_filename] leaves as they are, are exactly
    those made of allowed characters that do not end in whitespace. *)
Theorem sanitize_filename_fixed_points {RT : Runtime} (name : str) :
  sanitize_filename name = name
  <-> forallb allowed name = true
      /\ forall r c, name = r ++ [c] -> isspace c = false.
Proof.
  split.
  - intros E. split.
    + rewrite <- E. apply sanitize_filename_allowed.
    + destruct (rstrip_Trimmed (filter allowed name)) as (ws & _ & _ & F).
      fold (sanitize_filename name) in F. rewrite E in F. exact F.
  - intros [A F]. unfold sanitize_filename.
    rewrite (filter_fixed _ A). apply rstrip_fixed, F.
Qed.

(** X2.  A character outside the allow-list leaves no trace, wherever it
    stands: two names that differ only by such characters get the same
    file name. *)
Theorem sanitize_filename_ignores_disallowed {RT : Runtime}
    (a b : str) (c : char) :
  allowed c = false ->
  sanitize_filename (a ++ c :: b) = sanitize_filename (a ++ b).
Proof.
  intros E. unfold sanitize_filename.
  rewrite (filter_allowed_insert _ _ _ E). reflexivity.
Qed.

Lemma sanitize_filename_ignores_disallowed_witness :
  @allowed ascii_runtime 47%N = false
  /\ @sanitize_filename ascii_runtime (lit "Body" ++ 47%N :: lit "1")
     = @sanitize_filename ascii_runtime (lit "Body" ++ lit "1").
Proof.
  split; [reflexivity|].
  exact (@sanitize_filename_ignores_disallowed ascii_runtime (lit "Body")
           (lit "1") 47%N eq_refl).
Defined.

(** X3.  The file name is empty exactly when every allowed character of
    the name is whitespace; in particular for the empty name and for a
    name without any allowed character. *)
Theorem sanitize_filename_empty {RT : Runtime} (name : str) :
  sanitize_filename name = []
  <-> forallb isspace (filter allowed name) = true.
Proof. unfold sanitize_filename. apply rstrip_nil_iff. Qed.

(** ** The visibility scan, continued *)

Lemma In_visible_components (cs : list Component) (item : Entity) :
  In item (visible_components cs)
  <-> match item with
      | EComponent comp => In comp cs /\ comp_isVisible comp = true
      | EBody _ => False
      end.
Proof.
  rewrite visible_components_filter, in_map_iff. split.
  - intros (c & <- & I). apply filter_In in I. exact I.
  - destruct item as [comp|body]; [|tauto].
    intros I. exists comp. rewrite filter_In. auto.
Qed.

Lemma In_visible_bodies (cs : list Component) (item : Entity) :
  In item (visible_bodies cs)
  <-> match item with
      | EComponent _ => False
      | EBody body =>
          body_isVisible body = true
          /\ exists comp, In comp cs /\ In body (bRepBodies comp)
      end.
Proof.
  rewrite visible_bodies_filter, in_map_iff. split.
  - intros (b & <- & I). apply filter_In in I as [I V].
    apply in_flat_map in I. auto.
  - destruct item as [comp|body]; [tauto|].
    intros [V I]. exists body. rewrite filter_In, in_flat_map. auto.
Qed.

(** X4.  What [get_visible_entities] returns: a component exactly when
    components are asked for and it is a visible component under the root;
    a body exactly when bodies are asked for and it is a visible body of
    some component under the root, whether that component is visible or
    not. *)
Theorem get_visible_entities_In
    (root : RootComponent) (export_components export_bodies : bool)
    (item : Entity) :
  In item (get_visible_entities root export_components export_bodies)
  <-> match item with
      | EComponent comp =>
          export_components = true
          /\ In comp (allComponents root)
          /\ comp_isVisible comp = true
      | EBody body =>
          export_bodies = true
          /\ body_isVisible body = true
          /\ exists comp,
               In comp (allComponents root) /\ In body (bRepBodies comp)
      end.
Proof.
  unfold get_visible_entities.
  pose proof (In_visible_components (allComponents root) item) as C.
  pose proof (In_visible_bodies (allComponents root) item) as B.
  destruct export_components, export_bodies; cbn [app];
    rewrite ?in_app_iff; destruct item as [comp|body]; simpl;
    intuition discriminate.
Qed.

(** ** The list of handlers *)

Section HandlersFacts.
Context {RT : Runtime} {H : Host}.

Lemma keeps_ret {A} (a : A) : keeps_handlers (ret a).
Proof. intros w. reflexivity. Qed.

Lemma keeps_host_call {R} (c : call R) : keeps_handlers (host_call c).
Proof.
  intros w. unfold host_call. destruct (host_respond c (host w)).
  reflexivity.
Qed.

Lemma keeps_messageBox (text : str) : keeps_handlers (messageBox text).
Proof.
  intros w. unfold messageBox. destruct (host_display text (host w)).
  reflexivity.
Qed.

Lemma keeps_bind {A B} (m : M A) (k : A -> M B) :
  keeps_handlers m -> (forall a, keeps_handlers (k a)) ->
  keeps_handlers (bind m k).
Proof.
  intros Km Kk w. unfold bind. specialize (Km w).
  destruct (m w) as [[a|e] w' t]; simpl in *; [|exact Km].
  rewrite after_final, Kk. exact Km.
Qed.

Lemma keeps_try_except {A} (body : M A) (hd : exn -> M A) :
  keeps_handlers body -> (forall e, keeps_handlers (hd e)) ->
  keeps_handlers (try_except body hd).
Proof.
  intros Kb Kh w. unfold try_except. specialize (Kb w).
  destruct (body w) as [[a|e] w' t]; simpl in *; [exact Kb|].
  rewrite after_final, Kh. exact Kb.
Qed.

Lemma keeps_for_enumerate {A} (body : nat -> A -> M unit) (l : list A) :
  (forall i x, keeps_handlers (body i x)) ->
  forall i, keeps_handlers (for_enumerate body l i).
Proof.
  intros Kb. induction l as [|x l IH]; intros i; simpl.
  - apply keeps_ret.
  - apply keeps_bind; [apply Kb | intros _; apply IH].
Qed.

Lemma keeps_export_entity (entity : Entity) (fd fmt : str) :
  keeps_handlers (export_entity entity fd fmt).
Proof.
  unfold export_entity.
  repeat first
    [ apply keeps_ret
    | apply keeps_host_call
    | apply keeps_messageBox
    | apply keeps_bind
    | match goal with
      | |- forall _, _ => intro
      | |- keeps_handlers (if ?b then _ else _) => destruct b
      | |- keeps_handlers (match ?x with _ => _ end) => destruct x
      end ].
Qed.

Lemma keeps_input_changed_body (args : handle) :
  keeps_handlers (InputChangedHandler.body args).
Proof.
  unfold InputChangedHandler.body.
  repeat (apply keeps_bind; [apply keeps_host_call | intros ?]).
  apply keeps_host_call.
Qed.

Lemma keeps_execute_body (args : handle) :
  keeps_handlers (CommandExecuteHandler.body args).
Proof.
  unfold CommandExecuteHandler.body.
  repeat (apply keeps_bind; [apply keeps_host_call | intros ?]).
  match goal with
  | |- keeps_handlers (if ?b then _ else _) => destruct b
  end; [apply keeps_ret|].
  repeat (apply keeps_bind; [apply keeps_host_call | intros ?]).
  apply keeps_bind.
  - apply keeps_for_enumerate. intros i x.
    unfold CommandExecuteHandler.export_step.
    apply keeps_bind; [apply keeps_export_entity|].
    intros _. apply keeps_host_call.
  - intros _. apply keeps_bind; [apply keeps_host_call|].
    intros _. apply keeps_messageBox.
Qed.

End HandlersFacts.

(** X5.  The input-changed and the execute callbacks leave the list of
    handlers as they found it, whatever the host answers. *)
Theorem callbacks_keep_handlers {RT : Runtime} {H : Host}
    (args : handle) (w : world) :
  handlers (final (InputChangedHandler.notify args w)) = handlers w
  /\ handlers (final (CommandExecuteHandler.notify args w)) = handlers w.
Proof.
  assert (I : keeps_handlers (InputChangedHandler.notify args)).
  { unfold InputChangedHandler.notify. apply keeps_try_except;
      [apply keeps_input_changed_body | intros e; apply keeps_messageBox]. }
  assert (E : keeps_handlers (CommandExecuteHandler.notify args)).
  { unfold CommandExecuteHandler.notify. apply keeps_try_except;
      [apply keeps_execute_body | intros e; apply keeps_messageBox]. }
  split; [apply I | apply E].
Qed.

(** X6.  The command-created callback keeps a reference to every handler
    it registered, and to no other: whatever the host answers, the list of
    handlers grows by the handlers whose registration returned, in the
    order of their registration. *)
Theorem created_handlers_are_kept {RT : Runtime} {H : Host}
    (args : handle) (w : world) :
  let r := CommandCreatedHandler.notify args w in
  handlers (final r) = handlers w ++ pick registered (events r).
Proof.
  unfold CommandCreatedHandler.notify, CommandCreatedHandler.body.
  run_script.
  do 16 (answer;
         [|answer; cbn [pick registered]; rewrite ?app_nil_r; reflexivity]).
  cbn [pick registered]. rewrite <- app_assoc. reflexivity.
Qed.

(** ** Export dispatch, continued *)

Section DispatchMore.
Context {RT : Runtime} {H : Host}.

Lemma pick_app {A B} (f : A -> option B) (a b : list A) :
  pick f (a ++ b) = pick f a ++ pick f b.
Proof.
  induction a as [|x a IH]; simpl; [reflexivity|].
  destruct (f x); simpl; rewrite IH; reflexivity.
Qed.

(** The path of every constructor call of [export_entity]. *)
Lemma export_entity_paths (w : world) (entity : Entity) (fd fmt : str) :
  pick filepath_of (events (export_entity entity fd fmt w))
  = map (fun _ =>
           path_join fd
             (sanitize_filename (entity_name entity) ++ lit "."
                ++ get_file_extension fmt))
      (pick constructor_of (events (export_entity entity fd fmt w))).
Proof.
  unfold export_entity. run_script.
  answer; [|reflexivity]. answer; [|reflexivity].
  destruct entity as [comp|body];
    repeat match goal with
    | |- context [str_eqb fmt ?b] => destruct (str_eqb fmt b); run_script
    end;
    answer; try reflexivity; answer; reflexivity.
Qed.

(** What [export_entity] does not do, by the combination it is given. *)
Lemma export_entity_by_selection (w : world) (entity : Entity)
    (fd fmt : str) :
  match selected entity fmt with
  | Some _ =>
      existsb is_messageBox (events (export_entity entity fd fmt w)) = false
  | None =>
      pick constructor_of (events (export_entity entity fd fmt w)) = []
      /\ existsb is_execute (events (export_entity entity fd fmt w)) = false
  end.
Proof.
  unfold export_entity. run_script.
  answer; [|destruct (selected entity fmt); auto].
  answer; [|destruct (selected entity fmt); auto].
  destruct entity as [comp|body]; unfold selected;
    repeat match goal with
    | |- context [str_eqb fmt ?b] =>
        let E := fresh "E" in
        destruct (str_eqb fmt b) eqn:E;
        [apply str_eqb_eq in E; subst fmt; compare_literals | ]
    end;
    run_script; answer; auto; answer; reflexivity.
Qed.

End DispatchMore.

(** X7.  Two entities whose names sanitize to the same file name are
    given, in the same folder and format, the same file path: every path
    [export_entity] hands to a constructor for the one equals every path
    it hands over for the other. *)
Theorem same_file_name_same_path {RT : Runtime} {H : Host}
    (a b : Entity) (fd fmt : str) (w w' : world) (p q : str) :
  sanitize_filename (entity_name a) = sanitize_filename (entity_name b) ->
  In p (pick filepath_of (events (export_entity a fd fmt w))) ->
  In q (pick filepath_of (events (export_entity b fd fmt w'))) ->
  p = q.
Proof.
  intros E. rewrite !export_entity_paths, !in_map_iff, E.
  intros (_ & <- & _) (_ & <- & _). reflexivity.
Qed.

Lemma same_file_name_same_path_witness :
  let a := EBody (mkBody (lit "Body/1") true) in
  let b := EComponent (mkComponent (lit "Body1 ") true []) in
  let w := sample_world None "STL" "/out" in
  let p := lit "/out/Body1.stl" in
  @sanitize_filename ascii_runtime (entity_name a)
  = @sanitize_filename ascii_runtime (entity_name b)
  /\ In p
       (pick filepath_of
          (events
             (@export_entity ascii_runtime scripted_host a (lit "/out")
                (lit "STL") w)))
  /\ In p
       (pick filepath_of
          (events
             (@export_entity ascii_runtime scripted_host b (lit "/out")
                (lit "STL") w)))
  /\ p = p.
Proof.
  split; [reflexivity|split; [left; reflexivity|split; [left; reflexivity|]]].
  exact (@same_file_name_same_path ascii_runtime scripted_host
           (EBody (mkBody (lit "Body/1") true))
           (EComponent (mkComponent (lit "Body1 ") true []))
           (lit "/out") (lit "STL") (sample_world None "STL" "/out")
           (sample_world None "STL" "/out") (lit "/out/Body1.stl")
           (lit "/out/Body1.stl") eq_refl (or_introl eq_refl)
           (or_introl eq_refl)).
Defined.

(** ** The dialog of the command *)

Section DialogFacts.
Context {RT : Runtime} {H : Host}.

Lemma In_firstn {A} (x : A) (n : nat) (l : list A) :
  In x (firstn n l) -> In x l.
Proof.
  revert n. induction l as [|y l IH]; intros [|n]; simpl; try tauto.
  intros [E|I]; [auto | right; eapply IH, I].
Qed.

(** The items of the format dropdown come in this order, as far as the
    callback gets. *)
Lemma created_list_items (args : handle) (w : world) :
  exists n,
    pick list_item (events (CommandCreatedHandler.notify args w))
    = firstn n dropdown_items.
Proof.
  unfold CommandCreatedHandler.notify, CommandCreatedHandler.body.
  run_script.
  do 16 (answer;
         [|answer;
           first [ exists 0; reflexivity | exists 1; reflexivity
                 | exists 2; reflexivity | exists 3; reflexivity
                 | exists 4; reflexivity ]]).
  exists 4. reflexivity.
Qed.

End DialogFacts.

(** X8.  Every format the command-created callback puts into the dropdown
    is one [export_entity] supports for a component: with a format of the
    dropdown, the export of a component never ends in the message box of
    the unsupported formats.  The item added as selected is STEP. *)
Theorem dropdown_formats_export_components {RT : Runtime} {H : Host}
    (args : handle) (w w' : world) (f : str) (sel : bool)
    (comp : Component) (fd : str) :
  In (f, sel) (pick list_item (events (CommandCreatedHandler.notify args w)))
  ->
  no_event is_messageBox (events (export_entity (EComponent comp) fd f w'))
  /\ (sel = true <-> f = lit "STEP").
Proof.
  intros I. destruct (created_list_items args w) as (n & E).
  rewrite E in I. apply In_firstn in I.
  pose proof (export_entity_by_selection w' (EComponent comp) fd f) as S.
  unfold no_event.
  destruct I as [[= <- <-]|[[= <- <-]|[[= <- <-]|[[= <- <-]|[]]]]];
    (split; [exact S | split; [discriminate || reflexivity
                              | discriminate || reflexivity]]).
Qed.

(** X9.  The format the dropdown starts with is refused for every body:
    with the item added as selected, [export_entity] on a body calls no
    constructor and never asks the manager to execute. *)
Theorem default_format_exports_no_body {RT : Runtime} {H : Host}
    (args : handle) (w w' : world) (f : str) (body : BRepBody) (fd : str) :
  In (f, true)
    (pick list_item (events (CommandCreatedHandler.notify args w))) ->
  pick constructor_of (events (export_entity (EBody body) fd f w')) = []
  /\ no_event is_execute (events (export_entity (EBody body) fd f w')).
Proof.
  intros I. destruct (created_list_items args w) as (n & E).
  rewrite E in I. apply In_firstn in I.
  pose proof (export_entity_by_selection w' (EBody body) fd f) as S.
  destruct I as [[= <-]|[[=]|[[=]|[[=]|[]]]]]. exact S.
Qed.

(** ** The inputs of the command *)

Section InputFacts.
Context {RT : Runtime} {H : Host}.

Lemma loop_event_no_lookup (tr : list event) :
  forallb loop_event tr = true -> pick looked_up tr = [].
Proof.
  induction tr as [|ev tr IH]; simpl; [reflexivity|].
  intros A. apply andb_true_iff in A as [A1 A2].
  destruct ev as [R c r|text r]; [|apply IH, A2].
  destruct c; try discriminate; apply IH, A2.
Qed.

Lemma input_changed_lookups (args : handle) (w : world) (id : str) :
  In id (pick looked_up (events (InputChangedHandler.notify args w))) ->
  In id input_ids.
Proof.
  unfold InputChangedHandler.notify, InputChangedHandler.body, input_ids.
  run_script.
  do 9 (answer; [|answer; cbn [pick looked_up In]; tauto]).
  cbn [pick looked_up In]. tauto.
Qed.

Lemma prepare_lookups (args : handle) (w : world) (id : str) :
  In id (pick looked_up (events (prepare args w))) -> In id input_ids.
Proof.
  unfold prepare, input_ids. run_script.
  do 13 (answer; [|cbn [pick looked_up In]; tauto]).
  match goal with
  | |- context [CommandExecuteHandler.falsy ?f] =>
      destruct (CommandExecuteHandler.falsy f)
  end; run_script; [cbn [pick looked_up In]; tauto|].
  do 3 (answer; [|cbn [pick looked_up In]; tauto]).
  cbn [pick looked_up In]. tauto.
Qed.

Lemma after_loop_lookups (s : session) (items : list Entity) (w : world) :
  pick looked_up
    (events (bind (export_loop s items 0) (fun _ => finish s) w)) = [].
Proof.
  rewrite bind_events, pick_app.
  rewrite (loop_event_no_lookup _ (export_loop_events s items 0 w)).
  destruct (outcome _); [|reflexivity].
  unfold finish. run_script. answer; [answer|]; reflexivity.
Qed.

Lemma execute_lookups (args : handle) (w : world) (id : str) :
  In id (pick looked_up (events (CommandExecuteHandler.notify args w))) ->
  In id input_ids.
Proof.
  rewrite notify_events, pick_app.
  assert (T : pick looked_up
                match outcome (phases args w) with
                | Normal _ => []
                | Raise e =>
                    events
                      (messageBox (CommandExecuteHandler.failure_text e)
                         (final (phases args w)))
                end = []).
  { destruct (outcome _) as [|e]; [reflexivity|].
    destruct (messageBox_events (CommandExecuteHandler.failure_text e)
                (final (phases args w))) as (? & -> & _).
    reflexivity. }
  rewrite T, app_nil_r. clear T.
  destruct (outcome (prepare args w)) as [[s|]|e] eqn:P.
  - rewrite (phases_prepared _ _ P), after_events, pick_app.
    rewrite after_loop_lookups, app_nil_r. apply prepare_lookups.
  - unfold phases. rewrite (bind_normal _ _ _ P). unfold ret.
    cbn [after events]. rewrite app_nil_r. apply prepare_lookups.
  - unfold phases. rewrite (bind_raise _ _ _ P). cbn [events].
    apply prepare_lookups.
Qed.

Lemma created_inputs (args : handle) (w : world) :
  forallb returned (events (CommandCreatedHandler.notify args w)) = true ->
  pick added_input (events (CommandCreatedHandler.notify args w))
  = input_ids.
Proof.
  unfold CommandCreatedHandler.notify, CommandCreatedHandler.body.
  run_script.
  do 16 (answer; [|answer; observe; intros D; discriminate D]).
  reflexivity.
Qed.

End InputFacts.

(** X10.  The input-changed and the execute callbacks look a command
    input up only by an id under which the command-created callback, when
    all its calls return, has added one. *)
Theorem looked_up_inputs_were_added {RT : Runtime} {H : Host}
    (args args1 args2 : handle) (w w1 w2 : world) (id : str) :
  forallb returned (events (CommandCreatedHandler.notify args w)) = true ->
  In id
    (pick looked_up (events (InputChangedHandler.notify args1 w1))
       ++ pick looked_up (events (CommandExecuteHandler.notify args2 w2)))
  ->
  In id (pick added_input (events (CommandCreatedHandler.notify args w))).
Proof.
  intros R I. rewrite (created_inputs _ _ R).
  apply in_app_iff in I as [I|I].
  - eapply input_changed_lookups, I.
  - eapply execute_lookups, I.
Qed.

(** ** The end of command execution *)

Section ReportFacts.
Context {RT : Runtime} {H : Host}.

(** An export in which every call returns. *)
Lemma export_entity_returned (w : world) (entity : Entity) (fd fmt : str) :
  forallb returned (events (export_entity entity fd fmt w)) = true ->
  outcome (export_entity entity fd fmt w) = Normal tt
  /\ length (filter is_execute (events (export_entity entity fd fmt w)))
     = (if supported_item fmt entity then 1 else 0).
Proof.
  unfold export_entity, supported_item. run_script.
  answer; [|discriminate]. answer; [|discriminate].
  destruct entity as [comp|body]; unfold selected;
    repeat match goal with
    | |- context [str_eqb fmt ?b] =>
        let E := fresh "E" in
        destruct (str_eqb fmt b) eqn:E;
        [apply str_eqb_eq in E; subst fmt; compare_literals | ]
    end;
    run_script;
    answer; try (observe; intros D; discriminate D); auto;
    answer; try (observe; intros D; discriminate D); auto.
Qed.

Lemma export_step_returned (p : handle) (fd fmt : str) (i : nat)
    (item : Entity) (w : world) :
  forallb returned
    (events (CommandExecuteHandler.export_step p fd fmt i item w)) = true ->
  outcome (CommandExecuteHandler.export_step p fd fmt i item w) = Normal tt
  /\ length
       (filter is_execute
          (events (CommandExecuteHandler.export_step p fd fmt i item w)))
     = (if supported_item fmt item then 1 else 0).
Proof.
  unfold CommandExecuteHandler.export_step. intros A.
  rewrite bind_events, forallb_app in A.
  apply andb_true_iff in A as [A1 A2].
  destruct (export_entity_returned _ _ _ _ A1) as [N1 C1].
  rewrite N1 in A2. rewrite (bind_normal _ _ _ N1).
  rewrite after_outcome, after_events, filter_app, length_app, C1.
  unfold host_call in *.
  destruct (host_respond _ _) as [[[]|e] h2]; cbn [outcome events] in *.
  - split; [reflexivity|]. cbn [filter is_execute length]. lia.
  - cbn [forallb returned andb] in A2. discriminate A2.
Qed.

Lemma export_loop_returned (s : session) (items : list Entity) (i : nat)
    (w : world) :
  forallb returned (events (export_loop s items i w)) = true ->
  outcome (export_loop s items i w) = Normal tt
  /\ length (filter is_execute (events (export_loop s items i w)))
     = length (filter (supported_item (export_format s)) items).
Proof.
  unfold export_loop. revert i w.
  induction items as [|item items IH]; intros i w; [auto|].
  cbn [for_enumerate filter]. intros A.
  rewrite bind_events, forallb_app in A.
  apply andb_true_iff in A as [A1 A2].
  destruct (export_step_returned _ _ _ _ _ _ A1) as [N1 C1].
  rewrite N1 in A2. destruct (IH _ _ A2) as [N2 C2].
  rewrite (bind_normal _ _ _ N1).
  rewrite after_outcome, after_events, filter_app, length_app, C1, C2.
  split; [exact N2|].
  destruct (supported_item (export_format s) item); simpl; lia.
Qed.

Lemma last_app_two {A} (l : list A) (a b d : A) :
  last (l ++ [a; b]) d = b.
Proof.
  change [a; b] with ([a] ++ [b]). rewrite app_assoc. apply last_last.
Qed.

Lemma prepare_no_hide (args : handle) (w : world) :
  existsb is_hide (events (prepare args w)) = false.
Proof.
  unfold prepare. run_script.
  do 13 (answer; [|reflexivity]).
  match goal with
  | |- context [CommandExecuteHandler.falsy ?f] =>
      destruct (CommandExecuteHandler.falsy f)
  end; run_script; [reflexivity|].
  do 3 (answer; [|reflexivity]). reflexivity.
Qed.

Lemma loop_event_not_hide (ev : event) :
  loop_event ev = true -> is_hide ev = false.
Proof.
  destruct ev as [R c r|text r]; [|reflexivity].
  destruct c; try reflexivity; discriminate.
Qed.

(** *** The iterations of the loop, counted *)

Lemma export_entity_no_assignment (w : world) (entity : Entity)
    (fd fmt : str) :
  filter is_assignment (events (export_entity entity fd fmt w)) = [].
Proof.
  unfold export_entity. run_script.
  answer; [|reflexivity]. answer; [|reflexivity].
  destruct entity as [comp|body];
    repeat match goal with
    | |- context [str_eqb fmt ?b] => destruct (str_eqb fmt b); run_script
    end;
    answer; try reflexivity; answer; reflexivity.
Qed.

Lemma export_loop_assignments (s : session) (items : list Entity) (i : nat)
    (w : world) :
  forallb returned (events (export_loop s items i w)) = true ->
  length (filter is_assignment (events (export_loop s items i w)))
  = length items.
Proof.
  unfold export_loop. revert i w.
  induction items as [|item items IH]; intros i w; [reflexivity|].
  cbn [for_enumerate length]. intros A.
  rewrite bind_events, forallb_app in A.
  apply andb_true_iff in A as [A1 A2].
  destruct (export_step_returned _ _ _ _ _ _ A1) as [N1 _].
  rewrite N1 in A2.
  rewrite bind_events, N1, filter_app, length_app, (IH _ _ A2).
  destruct (export_step_normal _ _ _ _ _ _ N1) as [_ ->].
  rewrite filter_app, export_entity_no_assignment. reflexivity.
Qed.

Lemma prepare_no_assignment (args : handle) (w : world) :
  filter is_assignment (events (prepare args w)) = [].
Proof.
  unfold prepare. run_script.
  do 13 (answer; [|reflexivity]).
  match goal with
  | |- context [CommandExecuteHandler.falsy ?f] =>
      destruct (CommandExecuteHandler.falsy f)
  end; run_script; [reflexivity|].
  do 3 (answer; [|reflexivity]). reflexivity.
Qed.

(** The root and the checkbox values the phase before the loop was
    given, and the items it made of them. *)
Lemma prepare_selection (args : handle) (w : world) (s : session) :
  outcome (prepare args w) = Normal (Some s) ->
  exists root export_components export_bodies,
    pick selection (events (prepare args w))
    = [inl root; inr export_components; inr export_bodies]
    /\ visible_items s
       = get_visible_entities root export_components export_bodies.
Proof.
  unfold prepare. run_script.
  do 13 (answer; [|discriminate]).
  match goal with
  | |- context [CommandExecuteHandler.falsy ?f] => destruct f as [|c t]
  end; cbn [CommandExecuteHandler.falsy]; run_script; [discriminate|].
  do 3 (answer; [|discriminate]).
  intros [= <-]. cbn [pick selection visible_items].
  eexists _, _, _. split; reflexivity.
Qed.

(** A command execution with a folder in which every call returns: the
    loop has gone through every visible item, and the manager was asked
    to execute for those of a supported combination. *)
Lemma completed_counts (args : handle) (w : world) (s : session) :
  outcome (prepare args w) = Normal (Some s) ->
  forallb returned (events (CommandExecuteHandler.notify args w)) = true ->
  length
    (filter is_assignment (events (CommandExecuteHandler.notify args w)))
  = length (visible_items s)
  /\ length
       (filter is_execute (events (CommandExecuteHandler.notify args w)))
     = length (filter (supported_item (export_format s)) (visible_items s)).
Proof.
  intros P.
  rewrite notify_events, (phases_prepared _ _ P), after_outcome, after_events.
  intros A. rewrite !forallb_app in A.
  apply andb_true_iff in A as [A _].
  apply andb_true_iff in A as [_ A].
  rewrite bind_events, forallb_app in A.
  apply andb_true_iff in A as [A1 A2].
  destruct (export_loop_returned _ _ _ _ A1) as [N C].
  pose proof (export_loop_assignments _ _ _ _ A1) as C'.
  rewrite N in A2. rewrite (bind_normal _ _ _ N), after_outcome, after_events.
  revert A2. unfold finish. run_script.
  answer; [|cbn [forallb returned andb]; intros D; discriminate D].
  answer; [|cbn [forallb returned andb]; intros D; discriminate D].
  intros _. cbn [outcome].
  rewrite !filter_app, !length_app, prepare_no_execute, prepare_no_assignment.
  rewrite C, C'.
  cbn [filter is_execute is_assignment length app]. lia.
Qed.

End ReportFacts.

(** ** The counter of files and the export loop *)

(** C6.  An input-changed event in which every host call returns sets the
    text of the 'fileCount' box to the decimal string of the length of
    [get_visible_entities] at the root and the two checkbox values the
    host gave in that event.  This is the number of items a command
    execution given the same root and checkbox values goes through, one
    iteration each, when every one of its calls returns; the number it
    asks the manager to execute is the number of those items whose
    combination with the format is a supported one. *)
Theorem file_count_counts_visible_items {RT : Runtime} {H : Host}
    (args : handle) (w : world) :
  let changed := InputChangedHandler.notify args w in
  forallb returned (events changed) = true ->
  exists cmdInputs design root cb1 export_components cb2 export_bodies
         count_box,
    let items := get_visible_entities root export_components export_bodies in
    events changed
    = [Called (GetInputs args) (Normal cmdInputs);
       Called ActiveProduct (Normal design);
       Called (GetRootComponent design) (Normal root);
       Called (ItemById cmdInputs (lit "exportComponents")) (Normal cb1);
       Called (GetValue cb1) (Normal export_components);
       Called (ItemById cmdInputs (lit "exportBodies")) (Normal cb2);
       Called (GetValue cb2) (Normal export_bodies);
       Called (ItemById cmdInputs (lit "fileCount")) (Normal count_box);
       Called (SetText count_box (py_str (length items))) (Normal tt)]
    /\ outcome changed = Normal tt
    /\ forall (args' : handle) (w' : world) (s : session),
         let executed := CommandExecuteHandler.notify args' w' in
         outcome (prepare args' w') = Normal (Some s) ->
         pick selection (events (prepare args' w'))
         = pick selection (events changed) ->
         visible_items s = items
         /\ (forallb returned (events executed) = true ->
             length (filter is_assignment (events executed)) = length items
             /\ length (filter is_execute (events executed))
                = length (filter (supported_item (export_format s)) items)).
Proof.
  intros changed A.
  destruct (file_count_shows_length args w A)
    as (ci & d & root & cb1 & ec & cb2 & eb & box & E & O).
  exists ci, d, root, cb1, ec, cb2, eb, box.
  split; [exact E|split; [exact O|]].
  intros args' w' s executed P S.
  destruct (prepare_selection _ _ P) as (root' & ec' & eb' & S' & V).
  unfold changed in S. rewrite E, S' in S. cbn [pick selection] in S.
  injection S as -> -> ->.
  split; [exact V|]. intros R. rewrite <- V.
  exact (completed_counts _ _ P R).
Qed.

(** X11.  When a folder was chosen and every call of the execute callback
    returns, the manager was asked to execute once for each visible item
    of a supported combination, and the last thing the callback does is
    to report all the visible items as exported, the refused ones too. *)
Theorem completed_export_report {RT : Runtime} {H : Host}
    (args : handle) (w : world) (s : session) :
  outcome (prepare args w) = Normal (Some s) ->
  let r := CommandExecuteHandler.notify args w in
  forallb returned (events r) = true ->
  length (filter is_execute (events r))
  = length (filter (supported_item (export_format s)) (visible_items s))
  /\ last (events r) (MessageBox [] (Normal tt))
     = MessageBox
         (lit "Exported " ++ py_str (length (visible_items s))
            ++ lit " files successfully.")
         (Normal tt).
Proof.
  intros P r. subst r.
  rewrite notify_events, (phases_prepared _ _ P), after_outcome, after_events.
  intros A. rewrite !forallb_app in A.
  apply andb_true_iff in A as [A _].
  apply andb_true_iff in A as [_ A].
  rewrite bind_events, forallb_app in A.
  apply andb_true_iff in A as [A1 A2].
  destruct (export_loop_returned _ _ _ _ A1) as [N C].
  rewrite N in A2. rewrite (bind_normal _ _ _ N), after_outcome, after_events.
  revert A2. unfold finish. run_script.
  answer; [|cbn [forallb returned andb]; intros D; discriminate D].
  answer; [|cbn [forallb returned andb]; intros D; discriminate D].
  intros _. cbn [outcome].
  rewrite !filter_app, !length_app, prepare_no_execute, C, app_nil_r.
  split; [cbn [filter is_execute length]; lia|].
  rewrite app_assoc. apply last_app_two.
Qed.

(** X12.  When the export loop raises, the progress dialog is left as it
    is: the callback never hides it, and the last thing it does is to
    call the message box of its handler. *)
Theorem failed_loop_leaves_dialog {RT : Runtime} {H : Host}
    (args : handle) (w : world) (s : session) (e : exn) :
  outcome (prepare args w) = Normal (Some s) ->
  outcome (export_loop s (visible_items s) 0 (final (prepare args w)))
  = Raise e ->
  let r := CommandExecuteHandler.notify args w in
  no_event is_hide (events r)
  /\ exists answer,
       last (events r) (MessageBox [] (Normal tt))
       = MessageBox (CommandExecuteHandler.failure_text e) answer.
Proof.
  intros P F r. subst r. unfold no_event.
  assert (B : phases args w
              = mkRun (Raise e)
                  (final (export_loop s (visible_items s) 0
                            (final (prepare args w))))
                  (events (prepare args w)
                   ++ events (export_loop s (visible_items s) 0
                                (final (prepare args w))))).
  { rewrite (phases_prepared _ _ P), (bind_raise _ _ _ F). reflexivity. }
  rewrite notify_events, B. cbn [outcome events final].
  match goal with
  | |- context [events (messageBox ?t ?w0)] =>
      destruct (messageBox_events t w0) as (answer & -> & _)
  end.
  split; [|exists answer; apply last_last].
  - rewrite !existsb_app, prepare_no_hide.
    assert (existsb is_hide
              (events (export_loop s (visible_items s) 0
                         (final (prepare args w)))) = false) as ->
      by (apply existsb_excluded with (p := loop_event);
          [exact loop_event_not_hide | apply export_loop_events]).
    reflexivity.
Qed.

(** ** Starting and stopping the add-in *)

(** X13.  [run] and [stop] catch every exception of their body, that of
    a call the host answers with an exception and that of reading an
    attribute of [None]: each then calls the message box with 'Add-in
    startup failed:' or 'Add-in shutdown failed:' and the stack trace of
    that exception, right after what the body did, and ends as the
    message box does: it returns normally when the message box returns,
    and lets the exception of the message box out when that call raises.
    When the body returns, nothing more is done. *)
Theorem start_stop_catch_body_exceptions {RT : Runtime} {H : Host}
    {U : UIHost H} (context : handle) (w : world) :
  ui_catches (lit "Add-in startup failed:")
    (AddIn.run_body context w) (AddIn.run context w)
  /\ ui_catches (lit "Add-in shutdown failed:")
       (AddIn.stop_body context w) (AddIn.stop context w).
Proof.
  split.
  - unfold ui_catches, AddIn.run, AddIn.startup_text, AddIn.run_body.
    run_addin.
    addin_cases;
      first
        [ split; reflexivity
        | eexists; split; [reflexivity|split; [|reflexivity]];
          match goal with
          | |- ui_failure ?l _ =>
              first
                [ left;
                  exists (removelast l),
                    (last l (Script (MessageBox [] (Normal tt))));
                  cbn [removelast last app];
                  split; [reflexivity|split; reflexivity]
                | right;
                  repeat match goal with
                         | v : option handle |- _ => destruct v
                         end;
                  (split; [reflexivity|split; [reflexivity|]]);
                  eexists; reflexivity ]
          end ].
  - unfold ui_catches, AddIn.stop, AddIn.shutdown_text, AddIn.stop_body.
    run_addin.
    addin_cases;
      first
        [ split; reflexivity
        | eexists; split; [reflexivity|split; [|reflexivity]];
          match goal with
          | |- ui_failure ?l _ =>
              first
                [ left;
                  exists (removelast l),
                    (last l (Script (MessageBox [] (Normal tt))));
                  cbn [removelast last app];
                  split; [reflexivity|split; reflexivity]
                | right;
                  repeat match goal with
                         | v : option handle |- _ => destruct v
                         end;
                  (split; [reflexivity|split; [reflexivity|]]);
                  eexists; reflexivity ]
          end ].
Qed.

(** X14.  [run] adds the button definition at most once, with the id, the
    name, the tooltip and the icon folder of the module, and only when its
    lookup found no definition under that id. *)
Theorem run_adds_missing_definition_only {RT : Runtime} {H : Host}
    {U : UIHost H} (context : handle) (w : world) :
  let evs := ui_events (AddIn.run context w) in
  pick button_added evs = []
  \/ (pick button_added evs = [(CMD_ID, CMD_NAME, CMD_TOOLTIP, ICON_FOLDER)]
      /\ existsb definition_found evs = false).
Proof.
  unfold AddIn.run, AddIn.run_body. run_addin.
  addin_cases; cbn [pick button_added existsb definition_found orb]; auto.
Qed.

(** X15.  [run] keeps a reference to the handler it registered, and to
    nothing else: whatever the host answers, the list of handlers grows by
    the handler whose registration returned, if it did. *)
Theorem run_keeps_registered_handler {RT : Runtime} {H : Host}
    {U : UIHost H} (context : handle) (w : world) :
  let r := AddIn.run context w in
  handlers (ui_final r) = handlers w ++ pick created_registered (ui_events r).
Proof.
  unfold AddIn.run, AddIn.run_body. run_addin.
  addin_cases; cbn [pick created_registered]; rewrite ?app_nil_r;
    reflexivity.
Qed.

(** X16.  When [run] displays no message box, it has registered one
    command-created handler on a command definition and then added that
    same definition to the panel; the list of handlers has grown by that
    handler. *)
Theorem run_completed {RT : Runtime} {H : Host} {U : UIHost H}
    (context : handle) (w : world) :
  let r := AddIn.run context w in
  existsb ui_is_messageBox (ui_events r) = false ->
  handlers (ui_final r) = handlers w ++ [NewCommandCreatedHandler]
  /\ exists before panel cmdDef registered added,
       ui_events r
       = before
         ++ [UICalled (CommandCreatedAdd cmdDef NewCommandCreatedHandler)
               (Normal registered);
             UICalled (ControlsAddCommand panel cmdDef) (Normal added)].
Proof.
  unfold AddIn.run, AddIn.run_body. run_addin.
  addin_cases;
    cbn [existsb ui_is_messageBox ui_message orb];
    try (intros D; discriminate D); intros _;
    (split; [reflexivity|]).
  - eexists [_; _; _], _, _, _, _. reflexivity.
  - eexists [_; _; _; _], _, _, _, _. reflexivity.
Qed.

(** X17.  A missing panel is noticed only at the end of [run]: when the
    lookup of the panel answers [None], a command definition is found or
    added, and every call returns, the handler is registered and kept all
    the same, the command is added to no panel, and the last event is the
    message box of the failure. *)
Theorem run_without_panel {RT : Runtime} {H : Host} {U : UIHost H}
    (context : handle) (w : world) :
  let r := AddIn.run context w in
  existsb panel_missing (ui_events r) = true ->
  existsb definition_obtained (ui_events r) = true ->
  forallb ui_returned (ui_events r) = true ->
  pick created_registered (ui_events r) = [NewCommandCreatedHandler]
  /\ handlers (ui_final r) = handlers w ++ [NewCommandCreatedHandler]
  /\ existsb is_add_command (ui_events r) = false
  /\ last (ui_events r) (Script (MessageBox [] (Normal tt)))
     = Script
         (MessageBox (AddIn.startup_text (NoneAttributeError "controls"))
            (Normal tt)).
Proof.
  unfold AddIn.run, AddIn.run_body. run_addin.
  addin_cases;
    repeat match goal with v : option handle |- _ => destruct v end;
    cbn [existsb panel_missing definition_obtained orb forallb ui_returned
         returned andb];
    try (intros D; discriminate D); intros _;
    try (intros D; discriminate D); intros _;
    try (intros D; discriminate D); intros _;
    repeat split; reflexivity.
Qed.


(** X19.  [stop] leaves the list of handlers as it is, whatever the host
    answers: the references [run] and the command-created callback keep
    are never released. *)
Theorem stop_keeps_handlers {RT : Runtime} {H : Host} {U : UIHost H}
    (context : handle) (w : world) :
  handlers (ui_final (AddIn.stop context w)) = handlers w.
Proof.
  unfold AddIn.stop, AddIn.stop_body. run_addin.
  addin_cases; reflexivity.
Qed.

(** X20.  When the workspace or the panel is not there, [stop] deletes
    nothing: it does not even look the command definition up, and
    displays the message box of the failure. *)
Theorem stop_without_place {RT : Runtime} {H : Host} {U : UIHost H}
    (context : handle) (w : world) :
  let evs := ui_events (AddIn.stop context w) in
  existsb place_missing evs = true ->
  pick deleted evs = []
  /\ existsb is_definition_lookup evs = false
  /\ existsb ui_is_messageBox evs = true.
Proof.
  unfold AddIn.stop, AddIn.stop_body. run_addin.
  addin_cases;
    cbn [existsb place_missing orb];
    try (intros D; discriminate D); intros _;
    repeat split; reflexivity.
Qed.

(** * The further properties at work *)

Example run_then_stop :
  let started :=
    @AddIn.run ascii_runtime installed_host installed_ui (Handle 0)
      (fresh None true) in
  let stopped :=
    @AddIn.stop ascii_runtime installed_host installed_ui (Handle 0)
      (ui_final started) in
  (definition_present (host (ui_final started)) = true
   /\ control_present (host (ui_final started)) = true)
  /\ (definition_present (host (ui_final stopped)) = false
      /\ control_present (host (ui_final stopped)) = false)
  /\ pick deleted (ui_events stopped) = [Handle 43; Handle 42]
  /\ handlers (ui_final stopped) = [NewCommandCreatedHandler].
Proof. repeat split; reflexivity. Qed.

Example run_twice_adds_one_definition :
  let first :=
    @AddIn.run ascii_runtime installed_host installed_ui (Handle 0)
      (fresh None true) in
  let second :=
    @AddIn.run ascii_runtime installed_host installed_ui (Handle 0)
      (ui_final first) in
  length (pick button_added (ui_events first)) = 1
  /\ pick button_added (ui_events second) = []
  /\ handlers (ui_final second)
     = [NewCommandCreatedHandler; NewCommandCreatedHandler].
Proof. repeat split; reflexivity. Qed.

Lemma dropdown_formats_export_components_witness :
  let created :=
    @CommandCreatedHandler.notify ascii_runtime scripted_host (Handle 0)
      (sample_world None "STEP" "/out") in
  In (lit "IGES", false) (pick list_item (events created))
  /\ no_event is_messageBox
       (events
          (@export_entity ascii_runtime scripted_host (EComponent bracket)
             (lit "/out") (lit "IGES") (sample_world None "STEP" "/out")))
  /\ (false = true <-> lit "IGES" = lit "STEP").
Proof.
  assert (I : In (lit "IGES", false)
                (pick list_item
                   (events
                      (@CommandCreatedHandler.notify ascii_runtime
                         scripted_host (Handle 0)
                         (sample_world None "STEP" "/out")))))
    by (vm_compute; right; right; left; reflexivity).
  split; [exact I|].
  exact (@dropdown_formats_export_components ascii_runtime scripted_host
           (Handle 0) (sample_world None "STEP" "/out")
           (sample_world None "STEP" "/out") (lit "IGES") false bracket
           (lit "/out") I).
Defined.

Lemma default_format_exports_no_body_witness :
  let created :=
    @CommandCreatedHandler.notify ascii_runtime scripted_host (Handle 0)
      (sample_world None "STEP" "/out") in
  let exported :=
    @export_entity ascii_runtime scripted_host (EBody plate) (lit "/out")
      (lit "STEP") (sample_world None "STEP" "/out") in
  In (lit "STEP", true) (pick list_item (events created))
  /\ pick constructor_of (events exported) = []
  /\ no_event is_execute (events exported).
Proof.
  assert (I : In (lit "STEP", true)
                (pick list_item
                   (events
                      (@CommandCreatedHandler.notify ascii_runtime
                         scripted_host (Handle 0)
                         (sample_world None "STEP" "/out")))))
    by (vm_compute; left; reflexivity).
  split; [exact I|].
  exact (@default_format_exports_no_body ascii_runtime scripted_host
           (Handle 0) (sample_world None "STEP" "/out")
           (sample_world None "STEP" "/out") (lit "STEP") plate (lit "/out")
           I).
Defined.

Lemma looked_up_inputs_were_added_witness :
  let w := sample_world None "STEP" "/out" in
  let created :=
    @CommandCreatedHandler.notify ascii_runtime scripted_host (Handle 0) w in
  let changed :=
    @InputChangedHandler.notify ascii_runtime scripted_host (Handle 0) w in
  let executed :=
    @CommandExecuteHandler.notify ascii_runtime scripted_host (Handle 0) w in
  forallb returned (events created) = true
  /\ In (lit "fileCount")
       (pick looked_up (events changed) ++ pick looked_up (events executed))
  /\ In (lit "fileCount") (pick added_input (events created)).
Proof.
  assert (R : forallb returned
                (events
                   (@CommandCreatedHandler.notify ascii_runtime scripted_host
                      (Handle 0) (sample_world None "STEP" "/out"))) = true)
    by (vm_compute; reflexivity).
  assert (I : In (lit "fileCount")
                (pick looked_up
                   (events
                      (@InputChangedHandler.notify ascii_runtime
                         scripted_host (Handle 0)
                         (sample_world None "STEP" "/out")))
                 ++ pick looked_up
                      (events
                         (@CommandExecuteHandler.notify ascii_runtime
                            scripted_host (Handle 0)
                            (sample_world None "STEP" "/out")))))
    by (vm_compute; right; right; left; reflexivity).
  split; [exact R|split; [exact I|]].
  exact (@looked_up_inputs_were_added ascii_runtime scripted_host
           (Handle 0) (Handle 0) (Handle 0)
           (sample_world None "STEP" "/out") (sample_world None "STEP" "/out")
           (sample_world None "STEP" "/out") (lit "fileCount") R I).
Defined.

Lemma completed_export_report_witness :
  let w := sample_world None "STEP" "/out" in
  let s :=
    mkSession [EComponent bracket; EBody plate; EBody lid] (lit "/out")
      (lit "STEP") (Handle 30) in
  let r :=
    @CommandExecuteHandler.notify ascii_runtime scripted_host (Handle 0) w in
  outcome (@prepare scripted_host (Handle 0) w) = Normal (Some s)
  /\ forallb returned (events r) = true
  /\ length (filter is_execute (events r)) = 1
  /\ last (events r) (MessageBox [] (Normal tt))
     = MessageBox (lit "Exported 3 files successfully.") (Normal tt).
Proof.
  split; [reflexivity|split; [reflexivity|]].
  exact (@completed_export_report ascii_runtime scripted_host (Handle 0)
           (sample_world None "STEP" "/out")
           (mkSession [EComponent bracket; EBody plate; EBody lid]
              (lit "/out") (lit "STEP") (Handle 30))
           eq_refl eq_refl).
Defined.

Lemma failed_loop_leaves_dialog_witness :
  let w := sample_world (Some 24) "STL" "/out" in
  let r :=
    @CommandExecuteHandler.notify ascii_runtime scripted_host (Handle 0) w in
  outcome (@prepare scripted_host (Handle 0) w) = Normal (Some sample_session)
  /\ outcome
       (@export_loop ascii_runtime scripted_host sample_session
          (visible_items sample_session) 0
          (final (@prepare scripted_host (Handle 0) w)))
     = Raise RuntimeError
  /\ no_event is_hide (events r)
  /\ exists answer,
       last (events r) (MessageBox [] (Normal tt))
       = MessageBox
           (@CommandExecuteHandler.failure_text ascii_runtime RuntimeError)
           answer.
Proof.
  split; [reflexivity|split; [reflexivity|]].
  exact (@failed_loop_leaves_dialog ascii_runtime scripted_host (Handle 0)
           (sample_world (Some 24) "STL" "/out") sample_session RuntimeError
           eq_refl eq_refl).
Defined.

Lemma run_completed_witness :
  let r :=
    @AddIn.run ascii_runtime installed_host installed_ui (Handle 0)
      (fresh None true) in
  existsb ui_is_messageBox (ui_events r) = false
  /\ handlers (ui_final r) = [NewCommandCreatedHandler]
  /\ exists before panel cmdDef registered added,
       ui_events r
       = before
         ++ [UICalled (CommandCreatedAdd cmdDef NewCommandCreatedHandler)
               (Normal registered);
             UICalled (ControlsAddCommand panel cmdDef) (Normal added)].
Proof.
  split; [reflexivity|].
  exact (@run_completed ascii_runtime installed_host installed_ui (Handle 0)
           (fresh None true) eq_refl).
Defined.

Lemma run_without_panel_witness :
  let r :=
    @AddIn.run ascii_runtime installed_host installed_ui (Handle 0)
      (fresh None false) in
  existsb panel_missing (ui_events r) = true
  /\ existsb definition_obtained (ui_events r) = true
  /\ forallb ui_returned (ui_events r) = true
  /\ pick created_registered (ui_events r) = [NewCommandCreatedHandler]
  /\ handlers (ui_final r) = [NewCommandCreatedHandler]
  /\ existsb is_add_command (ui_events r) = false
  /\ last (ui_events r) (Script (MessageBox [] (Normal tt)))
     = Script
         (MessageBox
            (@AddIn.startup_text ascii_runtime
               (NoneAttributeError "controls"))
            (Normal tt)).
Proof.
  split; [reflexivity|split; [reflexivity|split; [reflexivity|]]].
  exact (@run_without_panel ascii_runtime installed_host installed_ui
           (Handle 0) (fresh None false) eq_refl eq_refl eq_refl).
Defined.

Lemma stop_without_place_witness :
  let evs :=
    ui_events
      (@AddIn.stop ascii_runtime installed_host installed_ui (Handle 0)
         (fresh None false)) in
  existsb place_missing evs = true
  /\ pick deleted evs = []
  /\ existsb is_definition_lookup evs = false
  /\ existsb ui_is_messageBox evs = true.
Proof.
  split; [reflexivity|].
  exact (@stop_without_place ascii_runtime installed_host installed_ui
           (Handle 0) (fresh None false) eq_refl).
Defined.

(** * A message box that raises, and items that are not exported *)

(** On a host whose message box raises, a failure in the body of a
    callback ends the callback with an exception. *)
Lemma callbacks_let_message_box_exception_out :
  let w := start (broken_box (sample_host (Some 0) true true "STEP" "/out")) in
  outcome
    (@CommandCreatedHandler.notify ascii_runtime scripted_host (Handle 0) w)
  = Raise RuntimeError
  /\ outcome
       (@InputChangedHandler.notify ascii_runtime scripted_host (Handle 0) w)
     = Raise RuntimeError
  /\ outcome
       (@CommandExecuteHandler.notify ascii_runtime scripted_host (Handle 0)
          w)
     = Raise RuntimeError
  /\ events
       (@InputChangedHandler.notify ascii_runtime scripted_host (Handle 0) w)
     = [Called (GetInputs (Handle 0)) (Raise RuntimeError);
        MessageBox
          (lit "Failed in InputChangedHandler:" ++ [10%N]
             ++ plain_format_exc RuntimeError)
          (Raise RuntimeError)].
Proof. split; [reflexivity|split; [reflexivity|split; reflexivity]]. Qed.

(** With only the bodies checked and STEP selected, the counter shows 2
    and nothing is exported. *)
Lemma file_count_is_not_export_count :
  let w := start (sample_host None false true "STEP" "/out") in
  let changed :=
    @InputChangedHandler.notify ascii_runtime scripted_host (Handle 0) w in
  let executed :=
    @CommandExecuteHandler.notify ascii_runtime scripted_host (Handle 0) w in
  forallb returned (events changed) = true
  /\ forallb returned (events executed) = true
  /\ pick selection (events executed) = pick selection (events changed)
  /\ pick text_set (events changed) = [lit "2"]
  /\ length (filter is_execute (events executed)) = 0
  /\ pick text_set (events changed)
     <> [py_str (length (filter is_execute (events executed)))].
Proof.
  split; [reflexivity|split; [reflexivity|split; [reflexivity|]]].
  split; [reflexivity|split; [reflexivity|]].
  intros D. vm_compute in D. discriminate D.
Qed.

Lemma file_count_counts_visible_items_witness :
  let w := start (sample_host None false true "STEP" "/out") in
  let s :=
    mkSession [EBody plate; EBody lid] (lit "/out") (lit "STEP")
      (Handle 30) in
  let changed :=
    @InputChangedHandler.notify ascii_runtime scripted_host (Handle 0) w in
  let executed :=
    @CommandExecuteHandler.notify ascii_runtime scripted_host (Handle 0) w in
  forallb returned (events changed) = true
  /\ outcome (@prepare scripted_host (Handle 0) w) = Normal (Some s)
  /\ pick selection (events (@prepare scripted_host (Handle 0) w))
     = pick selection (events changed)
  /\ forallb returned (events executed) = true
  /\ pick text_set (events changed) = [lit "2"]
  /\ length (filter is_assignment (events executed)) = 2
  /\ length (filter is_execute (events executed)) = 0.
Proof.
  intros w s changed executed.
  split; [reflexivity|split; [reflexivity|split; [reflexivity|]]].
  split; [reflexivity|].
  destruct (@file_count_counts_visible_items ascii_runtime scripted_host
              (Handle 0) w eq_refl)
    as (ci & d & root & cb1 & ec & cb2 & eb & box & E & O & K).
  destruct (K (Handle 0) w s eq_refl eq_refl) as [V C].
  destruct (C eq_refl) as [C1 C2].
  rewrite <- V in C1, C2.
  split; [reflexivity|split; [exact C1|exact C2]].
Defined.
